(** * ceearrashee/errors: a shallow embedding of the error value model

    The Go package [errors] (files [errorWithMessage.go], [errors.go] and the
    sentinel declarations) is embedded as Rocq functions.

    - A value of the Go interface type [error] is a term of the inductive
      [error]: the nil interface, a [*Error] of this package, a
      [*fmt.wrapError] built by [fmt.Errorf] with one [%w], or any other
      implementation ([Foreign]) that has a message and possibly an
      [Unwrap() error] method.  Pointers carry the address they were allocated
      at; Go's [==] on interface values ([go_eq]) compares dynamic type and
      address.  An interface holding a nil [*Error], errors with their own
      [Is]/[As] methods and errors with [Unwrap() []error] are not represented.
    - Allocation ([&Error{...}], [fmt.Errorf]) threads the next free address
      through the monad [M].
    - A nil pointer dereference is the result [Panic] of the monad [outcome].
    - The Go runtime ([runtime.Callers], [runtime.CallersFrames]) and the part
      of package [fmt] outside a small fragment are parameters ([Runtime]). *)

From Stdlib Require Import String Ascii ZArith List Bool Lia PeanoNat Arith.
From Stdlib Require Import DecimalString.
Import ListNotations.
Local Open Scope list_scope.
Local Open Scope string_scope.

(** ** Results of code that may dereference nil *)

Inductive outcome (A : Type) : Type :=
| Ret (a : A)
| Panic.
Arguments Ret {A} a.
Arguments Panic {A}.

Definition obind {A B : Type} (o : outcome A) (k : A -> outcome B) : outcome B :=
  match o with
  | Ret a => k a
  | Panic => Panic
  end.

Notation "x <-! c ;; k" := (obind c (fun x => k))
  (at level 61, c at next level, right associativity).

(** ** Allocation: the next free heap address is threaded through *)

Definition heap := nat.
Definition M (A : Type) : Type := heap -> A * heap.

Definition ret {A : Type} (a : A) : M A := fun h => (a, h).
Definition bind {A B : Type} (c : M A) (k : A -> M B) : M B :=
  fun h => let (a, h') := c h in k a h'.
Definition alloc : M nat := fun h => (h, S h).

Notation "x <- c ;; k" := (bind c (fun x => k))
  (at level 61, c at next level, right associativity).

(** ** Data model (errorWithMessage.go, lines 8-19) *)

Definition uintptr := Z.

(** [type Stack []uintptr]; a [*Stack] is an [option Stack], [None] being nil. *)
Definition Stack := list uintptr.

Inductive error : Type :=
| nil_error
| Foreign (id : nat) (msg : string) (cause : error)
| fmt_wrapError (p : nat) (msg : string) (err : error)
| ptr_Error (p : nat) (e : Error)
with Error : Type :=
| mkError (Description : string) (error_ : error) (stack : option Stack).

Scheme error_mind := Induction for error Sort Prop
  with Error_mind := Induction for Error Sort Prop.

Definition Description (e : Error) : string :=
  match e with mkError d _ _ => d end.
Definition error_ (e : Error) : error :=
  match e with mkError _ c _ => c end.
Definition stack (e : Error) : option Stack :=
  match e with mkError _ _ s => s end.

(** A value of the pointer type [*Error]. *)
Inductive pError : Type :=
| nil_pError
| ref (p : nat) (e : Error).

(** Conversion of a non-nil [*Error] to the interface type. *)
Definition to_error (r : pError) : error :=
  match r with
  | nil_pError => nil_error
  | ref p e => ptr_Error p e
  end.

Definition is_nil (err : error) : bool :=
  match err with nil_error => true | _ => false end.

(** Go's [==] on two interface values: same dynamic type, same pointer. *)
Definition go_eq (a b : error) : bool :=
  match a, b with
  | nil_error, nil_error => true
  | Foreign i _ _, Foreign j _ _ => Nat.eqb i j
  | fmt_wrapError p _ _, fmt_wrapError q _ _ => Nat.eqb p q
  | ptr_Error p _, ptr_Error q _ => Nat.eqb p q
  | _, _ => false
  end.

(** ** errors.Unwrap and the cause chain *)

(** [Error.Unwrap], errorWithMessage.go line 138. *)
Definition Error_Unwrap (e : Error) : error := error_ e.

(** [errors.Unwrap]: the result of the [Unwrap() error] method, nil when the
    value is nil or has no such method. *)
Definition Unwrap (err : error) : error :=
  match err with
  | nil_error => nil_error
  | Foreign _ _ c => c
  | fmt_wrapError _ _ c => c
  | ptr_Error _ e => Error_Unwrap e
  end.

(** The values taken by [err] in [for err := x; err != nil; err = Unwrap(err)]. *)
Fixpoint chain (x : error) : list error :=
  match x with
  | nil_error => []
  | Foreign _ _ c => x :: chain c
  | fmt_wrapError _ _ c => x :: chain c
  | ptr_Error _ (mkError _ c _) => x :: chain c
  end.

(** ** The method Error() *)

(** [error_Error err] is the call [err.Error()] through the interface;
    [Error_Error e] is [Error.Error], errorWithMessage.go lines 50-56. *)
Fixpoint error_Error (err : error) : outcome string :=
  match err with
  | nil_error => Panic
  | Foreign _ m _ => Ret m
  | fmt_wrapError _ m _ => Ret m
  | ptr_Error _ e => Error_Error e
  end
with Error_Error (e : Error) : outcome string :=
  match e with
  | mkError d c _ =>
      if is_nil c then Ret d
      else m <-! error_Error c ;; Ret (d ++ ": " ++ m)
  end.

(** [Error.Message], errorWithMessage.go lines 62-68. *)
Definition Error_Message (e : Error) : outcome string :=
  if String.eqb (Description e) "" then error_Error (error_ e)
  else Ret (Description e).

(** [Error.GetOriginalErrorMessage], errorWithMessage.go lines 75-96. *)
Definition Error_GetOriginalErrorMessage (e : Error) : outcome string :=
  let originalErr :=
    fold_left (fun _ err => err) (chain (Unwrap (error_ e))) nil_error in
  if String.eqb (Description e) "" then
    if negb (is_nil originalErr) then error_Error originalErr
    else error_Error (error_ e)
  else
    let errToUse :=
      if negb (is_nil originalErr) then originalErr else error_ e in
    m <-! error_Error errToUse ;; Ret (Description e ++ ": " ++ m).

(** ** Package fmt: the fragment of the verbs the package relies on

    Operands of a variadic [...any] call.  The fragment covers literal text,
    [%%], [%d] on an int, [%s] on a string or a non-nil error, [%v] on any of
    these and on a nil error, and, under [fmt.Errorf], [%w] on a non-nil
    error, with as many operands as verbs.  What [fmt] prints outside this
    fragment (flags, widths, missing or extra operands, bad verbs) is left to
    the [Runtime]. *)

Inductive any : Type :=
| VInt (z : Z)
| VString (s : string)
| VError (e : error).

Definition itoa (z : Z) : string := NilZero.string_of_int (Z.to_int z).

(** [Error.Format], errorWithMessage.go lines 28-30: whatever the verb, the
    formatter writes the description only. *)
Definition Error_Format (e : Error) : string := Description e.

Definition is_verb (c : ascii) (v : string) : bool :=
  String.eqb (String c "") v.

(** An error operand: a [fmt.Formatter] formats itself, any other error
    prints its [Error()]. *)
Definition printError (err : error) : option string :=
  match err with
  | nil_error => None
  | ptr_Error _ e => Some (Error_Format e)
  | Foreign _ m _ => Some m
  | fmt_wrapError _ m _ => Some m
  end.

Definition printArg (verb : ascii) (arg : any) : option string :=
  match arg with
  | VInt z => if is_verb verb "d" || is_verb verb "v" then Some (itoa z) else None
  | VString s => if is_verb verb "s" || is_verb verb "v" then Some s else None
  | VError nil_error => if is_verb verb "v" then Some "<nil>" else None
  | VError err =>
      if is_verb verb "s" || is_verb verb "v" then printError err else None
  end.

(** The text and the operands consumed by [%w], in order. *)
Fixpoint doPrintf (wrapErrs : bool) (format : string) (a : list any)
  : option (string * list error) :=
  match format with
  | EmptyString => match a with [] => Some ("", []) | _ => None end
  | String c rest =>
      if is_verb c "%" then
        match rest with
        | EmptyString => None
        | String verb rest' =>
            if is_verb verb "%" then
              match doPrintf wrapErrs rest' a with
              | Some (t, ws) => Some (String "%" t, ws)
              | None => None
              end
            else
              match a with
              | [] => None
              | arg :: a' =>
                  if is_verb verb "w" then
                    match wrapErrs, arg with
                    | true, VError err =>
                        match printError err, doPrintf wrapErrs rest' a' with
                        | Some s, Some (t, ws) => Some (s ++ t, err :: ws)
                        | _, _ => None
                        end
                    | _, _ => None
                    end
                  else
                    match printArg verb arg, doPrintf wrapErrs rest' a' with
                    | Some s, Some (t, ws) => Some (s ++ t, ws)
                    | _, _ => None
                    end
              end
        end
      else
        match doPrintf wrapErrs rest a with
        | Some (t, ws) => Some (String c t, ws)
        | None => None
        end
  end.

(** ** The Go runtime and the rest of fmt, as parameters *)

(** [runtime.Frame], the fields the package reads. *)
Record Frame : Type := mkFrame {
  Function : string;
  File : string;
  Line : Z
}.

Definition zeroFrame : Frame := mkFrame "" "" 0.

Record Runtime : Type := mkRuntime {
  (** the frames [runtime.CallersFrames(pcs)] yields through [Next], in order *)
  CallersFrames : Stack -> list Frame;
  (** [fmt.Sprintf] outside the fragment *)
  Sprintf_other : string -> list any -> string;
  (** [fmt.Errorf] outside the fragment *)
  Errorf_other : string -> list any -> M error
}.

(** [frames.Next()]: the next frame and whether more follow; with no frame
    left it yields the zero Frame and false. *)
Definition Frames_Next (frames : list Frame) : Frame * bool * list Frame :=
  match frames with
  | [] => (zeroFrame, false, [])
  | f :: rest => (f, negb (Nat.eqb (length rest) 0), rest)
  end.

(** [fmt.Sprintf("%s\n\t%s:%d", frame.Function, frame.File, frame.Line)]. *)
Definition formatFrame (frame : Frame) : string :=
  Function frame ++ String (ascii_of_nat 10) (String (ascii_of_nat 9) "")
    ++ File frame ++ ":" ++ itoa (Line frame).

(** The [for] loop of GetCallStack, errorWithMessage.go lines 158-169. *)
Fixpoint GetCallStack_loop (frames : list Frame) (callStackFrames : list string)
  : list string :=
  let '(frame, more, _) := Frames_Next frames in
  if String.eqb (Function frame) "unknown" then callStackFrames
  else
    let callStackFrames := (callStackFrames ++ [formatFrame frame])%list in
    if negb more then callStackFrames
    else
      match frames with
      | [] => callStackFrames
      | _ :: rest => GetCallStack_loop rest callStackFrames
      end.

(** [callers], errorWithMessage.go lines 174-184.  [cs] is what
    [runtime.Callers(3, ...)] can see: the program counters of the goroutine
    from the caller of the exported function outwards; at most 32 are kept. *)
Definition callers (cs : Stack) : option Stack := Some (firstn 32 cs).

Section Package.

Variable rt : Runtime.

Definition Sprintf (format : string) (a : list any) : string :=
  match doPrintf false format a with
  | Some (s, _) => s
  | None => Sprintf_other rt format a
  end.

(** [fmt.Errorf]: no [%w] gives an [errors.New] value, one [%w] a
    [*fmt.wrapError] around the operand. *)
Definition Errorf (format : string) (a : list any) : M error :=
  match doPrintf true format a with
  | Some (s, []) => p <- alloc ;; ret (Foreign p s nil_error)
  | Some (s, [w]) => p <- alloc ;; ret (fmt_wrapError p s w)
  | _ => Errorf_other rt format a
  end.

(** [Error.GetCallStack], errorWithMessage.go lines 146-172; a nil slice is
    [None], the slice made by [make] is [Some]. *)
Definition Error_GetCallStack (e : pError) : option (list string) :=
  match e with
  | nil_pError => None
  | ref _ e =>
      match stack e with
      | None => None
      | Some st => Some (GetCallStack_loop (CallersFrames rt st) [])
      end
  end.

(** ** errors.Is and errors.As *)

(** [errors.Is]: every value of the model is comparable and has no [Is]
    method, so the loop compares each link of the chain with [target]. *)
Definition Is (err target : error) : bool :=
  if is_nil err || is_nil target then go_eq err target
  else existsb (fun x => go_eq x target) (chain err).

Fixpoint As_loop (errs : list error) : bool * pError :=
  match errs with
  | [] => (false, nil_pError)
  | ptr_Error p e :: _ => (true, ref p e)
  | _ :: rest => As_loop rest
  end.

(** [errors.As(err, &target)] for a [target] of type [*Error] that is nil
    before the call: whether a link is a [*Error], and [target] afterwards. *)
Definition As (err : error) : bool * pError := As_loop (chain err).

(** ** Constructors (errors.go lines 77-95, errorWithMessage.go lines 40-44) *)

Definition New (description : string) : M error :=
  p <- alloc ;; ret (ptr_Error p (mkError description nil_error None)).

Definition NewWithStack (cs : Stack) (description : string) : M error :=
  p <- alloc ;; ret (ptr_Error p (mkError description nil_error (callers cs))).

Definition Newf (formatedDescription : string) (args : list any) : M pError :=
  p <- alloc ;; ret (ref p (mkError (Sprintf formatedDescription args) nil_error None)).

(** ** Wrappers (errors.go lines 105-191) *)

Definition Wrap (cs : Stack) (err : error) (description : string) : M error :=
  if is_nil err then ret nil_error
  else p <- alloc ;; ret (ptr_Error p (mkError description err (callers cs))).

Definition Wrapf (cs : Stack) (err : error) (format : string) (args : list any)
  : M error :=
  if is_nil err then ret nil_error
  else p <- alloc ;; ret (ptr_Error p (mkError (Sprintf format args) err (callers cs))).

Definition WrapfWithCustomErr (cs : Stack) (originalErr wrappingErr : error)
  (format : string) (args : list any) : M error :=
  if is_nil originalErr then ret nil_error
  else
    w <- Errorf "%w: %v" [VError wrappingErr; VError originalErr] ;;
    p <- alloc ;;
    ret (ptr_Error p (mkError (Sprintf format args) w (callers cs))).

Definition WrapWithCustomErr (cs : Stack) (originalErr wrappingErr : error)
  : M error :=
  if is_nil originalErr then ret nil_error
  else
    w <- Errorf "%w: %v" [VError wrappingErr; VError originalErr] ;;
    p <- alloc ;;
    ret (ptr_Error p (mkError "" w (callers cs))).

Definition AddCustomCallStack (err : error) (callStack : option Stack)
  : M (outcome error) :=
  if is_nil err then ret (Ret nil_error)
  else
    match error_Error err with
    | Panic => ret Panic
    | Ret d => p <- alloc ;; ret (Ret (ptr_Error p (mkError d err callStack)))
    end.

(** [Error.Wrap] and [Error.Wrapf], errorWithMessage.go lines 108-135. *)
Definition Error_Wrap (cs : Stack) (e : Error) (err : error) : M error :=
  if is_nil err || String.eqb (Description e) "" then ret nil_error
  else p <- alloc ;; ret (ptr_Error p (mkError (Description e) err (callers cs))).

Definition Error_Wrapf (cs : Stack) (e : Error) (format : string) (err : error)
  : M error :=
  if is_nil err || String.eqb (Description e) "" then ret nil_error
  else
    p <- alloc ;;
    let er := ptr_Error p (mkError (Description e) err (callers cs)) in
    Errorf (format ++ " :%w") [VError er].

End Package.

(** ** The sentinel errors

    The package-level [var] block runs once, in declaration order, on the
    empty heap. *)

Definition package_init : M (list error) :=
  e0 <- New "bad request" ;;
  e1 <- New "user unauthorized" ;;
  e2 <- New "registration required" ;;
  e3 <- New "payment error" ;;
  e4 <- New "forbidden" ;;
  e5 <- New "entity not found" ;;
  e6 <- New "conflict request" ;;
  e7 <- New "precondition failed" ;;
  e8 <- New "validation failed" ;;
  e9 <- New "internal server error" ;;
  ret [e0; e1; e2; e3; e4; e5; e6; e7; e8; e9].

Definition package_vars : list error := fst (package_init 0).

(** The first address free once the package is initialised. *)
Definition heap0 : heap := snd (package_init 0).

Definition ErrBadRequest : error := nth 0 package_vars nil_error.
Definition ErrUnauthorized : error := nth 1 package_vars nil_error.
Definition ErrRegistrationRequired : error := nth 2 package_vars nil_error.
Definition ErrPaymentError : error := nth 3 package_vars nil_error.
Definition ErrForbiddenAction : error := nth 4 package_vars nil_error.
Definition ErrNotFound : error := nth 5 package_vars nil_error.
Definition ErrConflict : error := nth 6 package_vars nil_error.
Definition ErrPreconditionFailed : error := nth 7 package_vars nil_error.
Definition ErrValidation : error := nth 8 package_vars nil_error.
Definition ErrInternalServerError : error := nth 9 package_vars nil_error.

(** The [switch] of GetOriginalPredefinedError, lines 194-204. *)
Definition is_predefined (err : error) : bool :=
  Is err ErrBadRequest
  || Is err ErrUnauthorized
  || Is err ErrRegistrationRequired
  || Is err ErrPaymentError
  || Is err ErrForbiddenAction
  || Is err ErrNotFound
  || Is err ErrConflict
  || Is err ErrPreconditionFailed
  || Is err ErrValidation
  || Is err ErrInternalServerError.

Fixpoint GetOriginalPredefinedError_loop (errs : list error) (predefinedErr : error)
  : error :=
  match errs with
  | [] => predefinedErr
  | err :: rest =>
      if is_predefined err then GetOriginalPredefinedError_loop rest err
      else predefinedErr
  end.

(** [Error.GetOriginalPredefinedError], errorWithMessage.go lines 190-212. *)
Definition Error_GetOriginalPredefinedError (e : Error) : error :=
  GetOriginalPredefinedError_loop (chain (Unwrap (error_ e))) (error_ e).

(** ** Chain traversal (errors.go lines 26-68) *)

Section Traversal.

Variable rt : Runtime.

(** One turn of the loop of FindOriginalErrorWithStack, lines 33-37. *)
Definition FindOriginalErrorWithStack_body
  (lastFrameworkErrWithStack : pError) (current : error) : pError :=
  let (ok, frameworkErr) := As current in
  if ok && match Error_GetCallStack rt frameworkErr with
           | Some _ => true
           | None => false
           end
  then frameworkErr
  else lastFrameworkErrWithStack.

Definition FindOriginalErrorWithStack_loop (current : error) (last : pError)
  : pError :=
  fold_left FindOriginalErrorWithStack_body (chain current) last.

Definition FindOriginalErrorWithStack (err : error) : pError :=
  FindOriginalErrorWithStack_loop err nil_pError.

Fixpoint FindFirstErrorWithStack_loop (currents : list error) : error :=
  match currents with
  | [] => nil_error
  | current :: rest =>
      let (ok, frameworkErr) := As current in
      if ok then to_error frameworkErr
      else FindFirstErrorWithStack_loop rest
  end.

Definition FindFirstErrorWithStack (err : error) : error :=
  FindFirstErrorWithStack_loop (chain err).

End Traversal.

(** ** Unwrapping several times *)

Fixpoint Unwrap_n (n : nat) (err : error) : error :=
  match n with
  | O => err
  | S k => Unwrap_n k (Unwrap err)
  end.

(** ** A concrete runtime, for running the definitions *)

Definition example_frames (pcs : Stack) : list Frame :=
  map (fun pc =>
         if Z.eqb pc 0 then mkFrame "unknown" "" 0
         else if Z.eqb pc 1 then mkFrame "" "asm.s" 7
         else mkFrame "main.main" "main.go" pc) pcs.

Definition example_runtime : Runtime :=
  mkRuntime example_frames
    (fun _ _ => "")
    (fun s _ => p <- alloc ;; ret (Foreign p s nil_error)).

Definition sqlErr : error := Foreign 100 "sql: no rows in result set" nil_error.

(** A chain handler -> load -> query, the two ends with captured stacks. *)
Definition query_Error : Error := mkError "query" nil_error (Some [7%Z]).
Definition load_error : error :=
  fmt_wrapError 31 "load: query" (ptr_Error 30 query_Error).
Definition handler_Error : Error :=
  mkError "handler" load_error (Some [8%Z; 9%Z]).

(** ** Vocabulary of the statements *)

(** The innermost link of a chain, nil for the nil error. *)
Definition deepest (x : error) : error := last (chain x) nil_error.

(** A [*Error] link that carries a captured stack. *)
Definition has_stack (x : error) : bool :=
  match x with
  | ptr_Error _ (mkError _ _ (Some _)) => true
  | _ => false
  end.

(** No link of the list is an Error with a captured stack. *)
Definition no_stack_in (errs : list error) : bool :=
  forallb (fun x => negb (has_stack x)) errs.

(** The frames [Next] hands out: those of the list, or the single zero Frame
    when there is none. *)
Definition yielded (frames : list Frame) : list Frame :=
  match frames with
  | [] => [zeroFrame]
  | _ => frames
  end.

(** The frames before the first one whose function name is "unknown". *)
Fixpoint known_prefix (frames : list Frame) : list Frame :=
  match frames with
  | [] => []
  | f :: rest =>
      if String.eqb (Function f) "unknown" then [] else f :: known_prefix rest
  end.

(** A call of one of the two wrappers that keep the wrapped error as cause. *)
Inductive wrap_call : Type :=
| ByWrap (cs : Stack) (description : string)
| ByWrapf (cs : Stack) (format : string) (args : list any).

Definition wrap_with (rt : Runtime) (c : wrap_call) (err : error) : M error :=
  match c with
  | ByWrap cs description => Wrap cs err description
  | ByWrapf cs format args => Wrapf rt cs err format args
  end.

(** [err] wrapped by each call in turn, the last call outermost. *)
Fixpoint wrap_all (rt : Runtime) (calls : list wrap_call) (err : error) : M error :=
  match calls with
  | [] => ret err
  | c :: rest => w <- wrap_with rt c err ;; wrap_all rt rest w
  end.

Definition three_wraps : list wrap_call :=
  [ByWrap [4%Z] "query"; ByWrapf [5%Z] "user %d" [VInt 42];
   ByWrap [6%Z] "handler"].

(** [err], when it is a pointer to an Error, was allocated below [h]. *)
Definition allocated_before (h : heap) (err : error) : Prop :=
  match err with
  | ptr_Error p _ => p < h
  | _ => True
  end.

(** ** Vocabulary of the further statements *)

(** One of the ten sentinels, by Go's [==]. *)
Definition is_sentinel (x : error) : bool := existsb (go_eq x) package_vars.

(** The innermost element of a list that satisfies [f]. *)
Fixpoint last_such (f : error -> bool) (l : list error) : option error :=
  match l with
  | [] => None
  | x :: rest =>
      match last_such f rest with
      | Some y => Some y
      | None => if f x then Some x else None
      end
  end.

Definition is_ptr_Error (x : error) : bool :=
  match x with ptr_Error _ _ => true | _ => false end.

(** The pointer held by an interface value, nil when it is not a [*Error]. *)
Definition as_pError (x : option error) : pError :=
  match x with
  | Some (ptr_Error p e) => ref p e
  | _ => nil_pError
  end.

(** The text fmt prints for a non-nil error operand of [%v] or [%w]: an Error
    formats itself as its description, any other error prints its Error(). *)
Definition operand_text (x : error) : string :=
  match x with
  | nil_error => ""
  | Foreign _ m _ => m
  | fmt_wrapError _ m _ => m
  | ptr_Error _ e => Description e
  end.

(** The address of a value that lives on the heap of the model. *)
Definition heap_below (h : heap) (x : error) : Prop :=
  match x with
  | ptr_Error p _ => p < h
  | fmt_wrapError p _ _ => p < h
  | _ => True
  end.

(** A format without any verb. *)
Fixpoint no_percent (s : string) : bool :=
  match s with
  | EmptyString => true
  | String c rest => negb (is_verb c "%") && no_percent rest
  end.

(** The description a call of Wrap or Wrapf gives to its wrapper. *)
Definition call_description (rt : Runtime) (c : wrap_call) : string :=
  match c with
  | ByWrap _ description => description
  | ByWrapf _ format args => Sprintf rt format args
  end.

(** The descriptions of the calls, the last call first, each followed by
    ": ", in front of [m]. *)
Definition joined_descriptions (rt : Runtime) (calls : list wrap_call) (m : string)
  : string :=
  fold_left (fun acc c => call_description rt c ++ ": " ++ acc) calls m.

(** ** The tracing adapter (package datadog, errors.go lines 192-374)

    The tracer, [encoding/json], [strings.TrimSpace] and the type names
    printed by [%T] for foreign errors belong to other packages and are
    parameters.  A span is observed through the calls made on it, in order. *)

Record RequestInfo : Type := mkRequestInfo {
  Method : string;
  URI : string;
  Headers : list (string * string);
  Body : string
}.

(** What the adapter reads from a [context.Context]: the span
    [tracer.SpanFromContext] finds, if any, and the value stored under
    [requestInfoKey]. *)
Record Context : Type := mkContext {
  ctx_span : option nat;
  ctx_request : option RequestInfo
}.

(** The keys of package [ext] and literal keys. *)
Inductive tag_key : Type :=
| ext_Error
| ext_ErrorMsg
| ext_ErrorType
| ext_ErrorStack
| ext_HTTPMethod
| ext_HTTPURL
| literal_key (k : string).

Inductive tag_value : Type :=
| TBool (b : bool)
| TString (s : string).

Inductive span_call : Type :=
| SetTag (k : tag_key) (v : tag_value)
| Finish.

(** A value of the [map[string]any] built by compactDetails. *)
Inductive detail : Type :=
| DString (s : string)
| DHeaders (h : list (string * string)).

Record Tracing : Type := mkTracing {
  (** [json.Marshal] on the map given by its bindings; [None] is an error *)
  json_Marshal : list (string * detail) -> option string;
  strings_TrimSpace : string -> string;
  (** the name [%T] prints for the dynamic type of a foreign error *)
  foreign_type : nat -> string
}.

(** [WithRequest], lines 239-241. *)
Definition WithRequest (ctx : Context) (info : RequestInfo) : Context :=
  mkContext (ctx_span ctx) (Some info).

Definition nonempty (s : string) : bool := negb (String.eqb s "").

(** [fmt.Fprintf(&buffer, ...)]: a write to a [bytes.Buffer] appends and
    returns a nil error. *)
Definition Buffer_Fprintf (buffer text : string) : string * error :=
  (buffer ++ text, nil_error).

(** The text [fmt.Fprintf(&buffer, "%s\n\t%s:%d\n", ...)] writes for a frame. *)
Definition frameLine (f : Frame) : string :=
  formatFrame f ++ String (ascii_of_nat 10) "".

(** [fmt.Sprintf("%T", err)]. *)
Definition Sprintf_T (tr : Tracing) (err : error) : string :=
  match err with
  | nil_error => "<nil>"
  | ptr_Error _ _ => "*errors.Error"
  | fmt_wrapError _ _ _ => "*fmt.wrapError"
  | Foreign id _ _ => foreign_type tr id
  end.

(** [strings.Join(elems, "\n")]; the nil slice joins to the empty string. *)
Definition Join_lines (elems : option (list string)) : string :=
  match elems with
  | None => ""
  | Some l => String.concat (String (ascii_of_nat 10) "") l
  end.

Section Datadog.

Variable rt : Runtime.
Variable tr : Tracing.

(** [compactDetails], lines 318-347. *)
Definition compactDetails (ri : RequestInfo) : string :=
  let extraData :=
    ((if nonempty (Method ri) then [("method", DString (Method ri))] else [])
     ++ (if nonempty (URI ri) then [("uri", DString (URI ri))] else [])
     ++ (if Nat.ltb 0 (length (Headers ri))
         then [("headers", DHeaders (Headers ri))] else [])
     ++ (if nonempty (Body ri) then [("body", DString (Body ri))] else []))%list in
  if Nat.eqb (length extraData) 0 then ""
  else
    match json_Marshal tr extraData with
    | None => ""
    | Some b => b
    end.

(** [setSpanRequestInfo], lines 292-316: the calls made on the span. *)
Definition setSpanRequestInfo (ctx : Context) : list span_call :=
  match ctx_request ctx with
  | None => []
  | Some ri =>
      ((if nonempty (Method ri)
        then [SetTag ext_HTTPMethod (TString (Method ri))] else [])
       ++ (if nonempty (URI ri)
           then [SetTag ext_HTTPURL (TString (URI ri))] else [])
       ++ (let details := compactDetails ri in
           if nonempty details
           then [SetTag (literal_key "error.details") (TString details)]
           else []))%list
  end.

(** The loop of buildStack, lines 359-371: the buffer, or the error returned
    from inside the loop.  [cs_w] is the stack errors.Wrapf would capture. *)
Fixpoint buildStack_loop (cs_w : Stack) (frames : list Frame) (buffer : string)
  : M (string + error) :=
  let '(f, more, _) := Frames_Next frames in
  let (buffer, err) :=
    if nonempty (Function f) && negb (String.prefix "runtime." (Function f))
    then Buffer_Fprintf buffer (frameLine f)
    else (buffer, nil_error) in
  if negb (is_nil err) then
    w <- Wrapf rt cs_w err "failed to format stack trace" [] ;; ret (inr w)
  else if negb more then ret (inl buffer)
  else
    match frames with
    | [] => ret (inl buffer)
    | _ :: rest => buildStack_loop cs_w rest buffer
    end.

(** [buildStack], lines 350-374.  [cs] is what [runtime.Callers(skip, ...)]
    can see; at most 64 program counters are kept. *)
Definition buildStack (cs cs_w : Stack) : M (string * error) :=
  r <- buildStack_loop cs_w (CallersFrames rt (firstn 64 cs)) "" ;;
  match r with
  | inr w => ret ("", w)
  | inl buffer => ret (strings_TrimSpace tr buffer, nil_error)
  end.

(** [HandleError], lines 252-290: the returned error and the calls made on
    the span of the context.  [cs] is the stack buildStack(2) sees, [cs_w] the
    one errors.Wrapf would capture. *)
Definition HandleError (cs cs_w : Stack) (ctx : Context) (err : error)
  : M (outcome (error * list span_call)) :=
  if is_nil err then ret (Ret (nil_error, []))
  else
    match ctx_span ctx with
    | None => ret (Ret (nil_error, []))
    | Some _ =>
        let (ok, typedError) := As err in
        r <- (if ok
              then ret (Join_lines (Error_GetCallStack rt typedError), nil_error)
              else buildStack cs cs_w) ;;
        let (stack, er) := r in
        if negb (is_nil er) then
          w <- Wrapf rt cs_w er "failed to build stack trace" [] ;;
          ret (Ret (w, [Finish]))
        else
          match error_Error err with
          | Panic => ret Panic
          | Ret msg =>
              ret (Ret (nil_error,
                        ([SetTag ext_Error (TBool true);
                          SetTag ext_ErrorMsg (TString msg);
                          SetTag ext_ErrorType (TString (Sprintf_T tr err));
                          SetTag ext_ErrorStack (TString stack)]
                         ++ setSpanRequestInfo ctx ++ [Finish])%list))
          end
    end.

End Datadog.

(** A frame buildStack writes: named, and not of package runtime. *)
Definition reportable (f : Frame) : bool :=
  nonempty (Function f) && negb (String.prefix "runtime." (Function f)).

(** The lines of the reportable frames, one after the other. *)
Definition buildStack_text (frames : list Frame) : string :=
  String.concat "" (map frameLine (filter reportable frames)).

(** The stack HandleError reports for [err]: the call stack of the outermost
    Error of its chain, joined by newlines, or, when the chain has no Error,
    the trimmed text of the frames of the calling goroutine. *)
Definition reported_stack (rt : Runtime) (tr : Tracing) (cs : Stack) (err : error)
  : string :=
  match find is_ptr_Error (chain err) with
  | Some (ptr_Error p e) => Join_lines (Error_GetCallStack rt (ref p e))
  | _ => strings_TrimSpace tr (buildStack_text (CallersFrames rt (firstn 64 cs)))
  end.

(** A call that sets a tag to a non-empty string. *)
Definition sets_nonempty_string (c : span_call) : bool :=
  match c with
  | SetTag _ (TString s) => nonempty s
  | _ => false
  end.

Definition example_tracing : Tracing :=
  mkTracing (fun _ => Some "{}") (fun s => s) (fun _ => "*errors.errorString").



(** A runtime whose only frame is unnamed, as for an empty stack. *)
Definition bare_runtime : Runtime :=
  mkRuntime (fun _ => []) (fun _ _ => "")
    (fun s _ => p <- alloc ;; ret (Foreign p s nil_error)).

(** * Properties *)

(** ** Running the definitions *)

Example ErrNotFound_value :
  ErrNotFound = ptr_Error 5 (mkError "entity not found" nil_error None).
Proof. reflexivity. Qed.

Example heap0_value : heap0 = 10.
Proof. reflexivity. Qed.

Example itoa_42 : itoa 42 = "42" /\ itoa 0 = "0" /\ itoa (-7) = "-7".
Proof. repeat split; reflexivity. Qed.

Example Sprintf_user_42 :
  Sprintf example_runtime "user %d missing" [VInt 42] = "user 42 missing".
Proof. reflexivity. Qed.

Example Wrap_db_failure :
  let (err, h) := New "db failure" heap0 in
  let (wrapped, _) := Wrap [4%Z; 5%Z] err "reading config" h in
  error_Error wrapped = Ret "reading config: db failure"
  /\ error_Error (Unwrap wrapped) = Ret "db failure".
Proof. split; reflexivity. Qed.

Example Wrap_nil_reading_config :
  Wrap [4%Z] nil_error "reading config" heap0 = (nil_error, heap0).
Proof. reflexivity. Qed.

Example GetCallStack_run :
  let (err, _) := NewWithStack [5%Z; 1%Z; 0%Z; 6%Z] "boom" heap0 in
  match err with
  | ptr_Error p e =>
      Error_GetCallStack example_runtime (ref p e)
      = Some [formatFrame (mkFrame "main.main" "main.go" 5);
              formatFrame (mkFrame "" "asm.s" 7)]
  | _ => False
  end.
Proof. reflexivity. Qed.

Lemma append_empty (a : string) : a ++ "" = a.
Proof. induction a as [|c a IH]; cbn; [reflexivity | now rewrite IH]. Qed.

(** With the constant formats of the package, the fragment of fmt is plain
    concatenation. *)
Lemma Sprintf_s_colon_s (rt : Runtime) (a b : string) :
  Sprintf rt "%s: %s" [VString a; VString b] = a ++ ": " ++ b.
Proof.
  unfold Sprintf. cbn. now rewrite append_empty.
Qed.

Lemma Sprintf_frame (rt : Runtime) (frame : Frame) :
  Sprintf rt ("%s" ++ String (ascii_of_nat 10) (String (ascii_of_nat 9) "%s:%d"))
    [VString (Function frame); VString (File frame); VInt (Line frame)]
  = formatFrame frame.
Proof.
  unfold Sprintf, formatFrame. cbn. now rewrite append_empty.
Qed.

(** ** The chain *)

Lemma is_nil_false (x : error) : is_nil x = false <-> x <> nil_error.
Proof. destruct x; cbn; split; congruence. Qed.

Lemma chain_unfold (x : error) :
  is_nil x = false -> chain x = x :: chain (Unwrap x).
Proof. destruct x as [| | |p [d c s]]; cbn; congruence. Qed.

(** Induction along Unwrap. *)
Lemma error_chain_ind (P : error -> Prop) :
  P nil_error ->
  (forall x, is_nil x = false -> P (Unwrap x) -> P x) ->
  forall x, P x.
Proof.
  intros Hnil Hstep.
  induction x using error_mind with (P0 := fun e => P (error_ e)).
  - exact Hnil.
  - apply Hstep; [reflexivity | exact IHx].
  - apply Hstep; [reflexivity | exact IHx].
  - apply Hstep; [reflexivity | exact IHx].
  - exact IHx.
Qed.

Lemma error_Error_total (x : error) :
  is_nil x = false -> exists m, error_Error x = Ret m.
Proof.
  induction x using error_mind
    with (P0 := fun e => exists m, Error_Error e = Ret m); intros.
  - discriminate.
  - cbn. eauto.
  - cbn. eauto.
  - cbn. apply IHx.
  - cbn. match goal with |- context [is_nil ?c] => destruct (is_nil c) eqn:E end.
    + eauto.
    + destruct (IHx eq_refl) as [m Hm]. rewrite Hm. cbn. eauto.
Qed.

Lemma go_eq_refl (x : error) : go_eq x x = true.
Proof. destruct x; cbn; auto using Nat.eqb_refl. Qed.

Lemma Unwrap_n_nil (n : nat) : Unwrap_n n nil_error = nil_error.
Proof. induction n; cbn; auto. Qed.

Lemma Unwrap_n_succ (n : nat) (x : error) :
  Unwrap_n (S n) x = Unwrap (Unwrap_n n x).
Proof. revert x. induction n; intros; cbn in *; auto. Qed.

(** ** Rendering and wrapping *)

Lemma Error_Error_with_cause (d : string) (c : error) (st : option Stack) :
  is_nil c = false ->
  exists m, error_Error c = Ret m
            /\ Error_Error (mkError d c st) = Ret (d ++ ": " ++ m).
Proof.
  intros Hc. destruct (error_Error_total c Hc) as [m Hm].
  exists m. split; [exact Hm|].
  cbn. rewrite Hc, Hm. reflexivity.
Qed.

(** C1. Error() returns exactly the description when the cause is nil, and
    the description, ": " and the cause's message when the cause is non-nil.
    For a non-nil err, Wrap(err, d) is a new Error whose Unwrap() is err
    itself and whose Error() is d, ": " and err.Error(). *)
Theorem C1_Error_message_and_Wrap :
  forall (e : Error) (cs : Stack) (err : error) (d : string) (h : heap),
    (error_ e = nil_error -> Error_Error e = Ret (Description e))
    /\ (error_ e <> nil_error ->
        exists m, error_Error (error_ e) = Ret m
                  /\ Error_Error e = Ret (Description e ++ ": " ++ m))
    /\ (err <> nil_error ->
        exists w m,
          Wrap cs err d h = (ptr_Error h w, S h)
          /\ Error_Unwrap w = err
          /\ go_eq (Unwrap (ptr_Error h w)) err = true
          /\ error_Error err = Ret m
          /\ error_Error (ptr_Error h w) = Ret (d ++ ": " ++ m)).
Proof.
  intros [dsc c st] cs err d h. cbn [error_ Description]. repeat split.
  - intros ->. reflexivity.
  - intros Hc. apply Error_Error_with_cause. now apply is_nil_false.
  - intros Herr. apply is_nil_false in Herr.
    destruct (Error_Error_with_cause d err (callers cs) Herr) as [m [Hm HE]].
    exists (mkError d err (callers cs)), m.
    unfold Wrap. rewrite Herr. cbn.
    repeat split; auto using go_eq_refl.
Qed.

Lemma C1_witness :
  Error_Error (mkError "db failure" nil_error None) = Ret "db failure"
  /\ (exists m,
        error_Error sqlErr = Ret m
        /\ Error_Error (mkError "reading config" sqlErr None)
           = Ret ("reading config" ++ ": " ++ m))
  /\ (exists w m,
        Wrap [4%Z] sqlErr "reading config" heap0 = (ptr_Error heap0 w, S heap0)
        /\ Error_Unwrap w = sqlErr
        /\ go_eq (Unwrap (ptr_Error heap0 w)) sqlErr = true
        /\ error_Error sqlErr = Ret m
        /\ error_Error (ptr_Error heap0 w) = Ret ("reading config" ++ ": " ++ m)).
Proof.
  split; [|split].
  - apply (C1_Error_message_and_Wrap (mkError "db failure" nil_error None)
             [4%Z] sqlErr "reading config" heap0).
    reflexivity.
  - apply (C1_Error_message_and_Wrap (mkError "reading config" sqlErr None)
             [4%Z] sqlErr "reading config" heap0).
    discriminate.
  - apply (C1_Error_message_and_Wrap (mkError "reading config" sqlErr None)
             [4%Z] sqlErr "reading config" heap0).
    discriminate.
Defined.

(** C2. Each of Wrap, Wrapf, WrapWithCustomErr, WrapfWithCustomErr and
    AddCustomCallStack returns nil when its primary error argument is nil,
    whatever the other arguments; nothing is allocated. *)
Theorem C2_wrappers_propagate_nil :
  forall (rt : Runtime) (cs : Stack) (wrappingErr : error)
         (description format : string) (args : list any)
         (callStack : option Stack) (h : heap),
    Wrap cs nil_error description h = (nil_error, h)
    /\ Wrapf rt cs nil_error format args h = (nil_error, h)
    /\ WrapWithCustomErr rt cs nil_error wrappingErr h = (nil_error, h)
    /\ WrapfWithCustomErr rt cs nil_error wrappingErr format args h = (nil_error, h)
    /\ AddCustomCallStack nil_error callStack h = (Ret nil_error, h).
Proof. intros. repeat split; reflexivity. Qed.

(** ** Chain traversal *)

Lemma As_ptr_Error (p : nat) (e : Error) : As (ptr_Error p e) = (true, ref p e).
Proof. destruct e. reflexivity. Qed.

Lemma As_loop_found (errs : list error) (f : pError) :
  As_loop errs = (true, f) ->
  exists p e, f = ref p e /\ In (ptr_Error p e) errs.
Proof.
  induction errs as [|x errs IH]; cbn; [discriminate|].
  destruct x; intros H;
    try (destruct (IH H) as (q & e' & -> & Hin); exists q, e'; auto).
  injection H as <-. eauto.
Qed.

(** A turn of the loop on a link below which no Error has a stack leaves the
    remembered pointer alone. *)
Lemma FindOriginalErrorWithStack_body_skip (rt : Runtime) (last : pError) (x : error) :
  no_stack_in (chain x) = true ->
  FindOriginalErrorWithStack_body rt last x = last.
Proof.
  intros Hno. unfold FindOriginalErrorWithStack_body, As.
  destruct (As_loop (chain x)) as [[|] f] eqn:HAs; [|reflexivity].
  destruct (As_loop_found _ _ HAs) as (p & e & -> & Hin).
  unfold no_stack_in in Hno. rewrite forallb_forall in Hno.
  specialize (Hno _ Hin). destruct e as [d c [st|]]; cbn in *; congruence.
Qed.

Lemma FindOriginalErrorWithStack_loop_skip (rt : Runtime) (x : error) :
  forall last,
    no_stack_in (chain x) = true ->
    FindOriginalErrorWithStack_loop rt x last = last.
Proof.
  induction x as [|x Hx IH] using error_chain_ind; intros last Hno.
  - reflexivity.
  - unfold FindOriginalErrorWithStack_loop in *.
    rewrite (chain_unfold x Hx) in *. cbn [fold_left].
    rewrite FindOriginalErrorWithStack_body_skip
      by (now rewrite (chain_unfold x Hx)).
    apply IH. unfold no_stack_in in *. cbn in Hno.
    now apply andb_true_iff in Hno.
Qed.

(** C3. In a chain A -> B -> C where A and C are Errors with captured stacks,
    B is any link between them and no link below C is an Error with a stack,
    FindOriginalErrorWithStack(A) is C and FindFirstErrorWithStack(A) is A.  On nil both return nil, and the
    loop, having no link to visit, hands back whatever it was started with. *)
Theorem C3_find_original_and_first :
  forall (rt : Runtime) (a c : nat) (dA dC : string) (sA sC : Stack)
         (B tail : error),
    is_nil B = false ->
    Unwrap B = ptr_Error c (mkError dC tail (Some sC)) ->
    no_stack_in (chain tail) = true ->
    FindOriginalErrorWithStack rt (ptr_Error a (mkError dA B (Some sA)))
    = ref c (mkError dC tail (Some sC))
    /\ FindFirstErrorWithStack (ptr_Error a (mkError dA B (Some sA)))
       = ptr_Error a (mkError dA B (Some sA))
    /\ FindOriginalErrorWithStack rt nil_error = nil_pError
    /\ FindFirstErrorWithStack nil_error = nil_error
    /\ chain nil_error = []
    /\ forall last, FindOriginalErrorWithStack_loop rt nil_error last = last.
Proof.
  intros rt a c dA dC sA sC B tail HB HU Htail.
  repeat split.
  unfold FindOriginalErrorWithStack, FindOriginalErrorWithStack_loop.
  change (chain (ptr_Error a (mkError dA B (Some sA))))
    with (ptr_Error a (mkError dA B (Some sA)) :: chain B).
  rewrite (chain_unfold B HB), HU.
  change (chain (ptr_Error c (mkError dC tail (Some sC))))
    with (ptr_Error c (mkError dC tail (Some sC)) :: chain tail).
  cbn [fold_left].
  assert (H1 : FindOriginalErrorWithStack_body rt nil_pError
                 (ptr_Error a (mkError dA B (Some sA)))
               = ref a (mkError dA B (Some sA))).
  { unfold FindOriginalErrorWithStack_body. rewrite As_ptr_Error. reflexivity. }
  assert (H3 : forall last,
             FindOriginalErrorWithStack_body rt last
               (ptr_Error c (mkError dC tail (Some sC)))
             = ref c (mkError dC tail (Some sC))).
  { intros last. unfold FindOriginalErrorWithStack_body.
    rewrite As_ptr_Error. reflexivity. }
  rewrite H1, H3.
  apply (FindOriginalErrorWithStack_loop_skip rt tail _ Htail).
Qed.

Lemma C3_witness :
  FindOriginalErrorWithStack example_runtime (ptr_Error 32 handler_Error)
  = ref 30 query_Error
  /\ FindFirstErrorWithStack (ptr_Error 32 handler_Error)
     = ptr_Error 32 handler_Error.
Proof.
  destruct (C3_find_original_and_first example_runtime 32 30
              "handler" "query" [8%Z; 9%Z] [7%Z] load_error nil_error
              eq_refl eq_refl eq_refl) as (H1 & H2 & _).
  split; [exact H1 | exact H2].
Defined.

(** ** Wrapping with a sentinel *)

(** The composite built by [fmt.Errorf("%w: %v", wrappingErr, originalErr)]:
    a [*fmt.wrapError] whose Unwrap() is the wrapping error; the original
    error only contributes text. *)
Lemma Errorf_w_v (rt : Runtime) (wrappingErr originalErr : error) (h : heap) :
  is_nil wrappingErr = false ->
  is_nil originalErr = false ->
  exists msg,
    Errorf rt "%w: %v" [VError wrappingErr; VError originalErr] h
    = (fmt_wrapError h msg wrappingErr, S h).
Proof.
  intros Hw Ho.
  destruct wrappingErr; try discriminate;
    destruct originalErr; try discriminate; cbn; unfold ret; eauto.
Qed.

Lemma is_predefined_ErrNotFound : is_predefined ErrNotFound = true.
Proof. reflexivity. Qed.

Lemma Is_through_composite (p q : nat) (d msg : string) (st : option Stack)
  (target : error) :
  is_nil target = false ->
  Is (ptr_Error p (mkError d (fmt_wrapError q msg target) st)) target = true.
Proof.
  intros Ht. unfold Is. rewrite Ht. cbn [is_nil orb chain existsb].
  destruct target as [| | |r [d' c' s']]; try discriminate;
    cbn [chain existsb]; rewrite (go_eq_refl _);
    rewrite ?orb_true_r; reflexivity.
Qed.

(** C4. For a non-nil err, the result of WrapWithCustomErr(err, ErrNotFound)
    satisfies Is(result, ErrNotFound) and its GetOriginalPredefinedError() is
    ErrNotFound; the result of
    WrapfWithCustomErr(err, ErrNotFound, "user %d missing", 42) satisfies
    Is(result, ErrNotFound) and its Error() begins with "user 42 missing: ". *)
Theorem C4_sentinel_wrapping :
  forall (rt : Runtime) (cs : Stack) (err : error) (h : heap),
    err <> nil_error ->
    (exists p e,
        fst (WrapWithCustomErr rt cs err ErrNotFound h) = ptr_Error p e
        /\ Is (ptr_Error p e) ErrNotFound = true
        /\ Error_GetOriginalPredefinedError e = ErrNotFound)
    /\ (exists p e rest,
           fst (WrapfWithCustomErr rt cs err ErrNotFound
                  "user %d missing" [VInt 42] h) = ptr_Error p e
           /\ Is (ptr_Error p e) ErrNotFound = true
           /\ Error_Error e = Ret ("user 42 missing: " ++ rest)).
Proof.
  intros rt cs err h Herr. apply is_nil_false in Herr.
  destruct (Errorf_w_v rt ErrNotFound err h eq_refl Herr) as [msg HE].
  split.
  - exists (S h), (mkError "" (fmt_wrapError h msg ErrNotFound) (callers cs)).
    split; [|split].
    + unfold WrapWithCustomErr, bind. rewrite Herr, HE. reflexivity.
    + now apply Is_through_composite.
    + unfold Error_GetOriginalPredefinedError.
      cbn [error_ Unwrap].
      change (chain ErrNotFound) with [ErrNotFound].
      cbn [GetOriginalPredefinedError_loop].
      rewrite is_predefined_ErrNotFound. reflexivity.
  - exists (S h),
      (mkError (Sprintf rt "user %d missing" [VInt 42])
         (fmt_wrapError h msg ErrNotFound) (callers cs)),
      msg.
    split; [|split].
    + unfold WrapfWithCustomErr, bind. rewrite Herr, HE. reflexivity.
    + now apply Is_through_composite.
    + reflexivity.
Qed.

Lemma C4_witness :
  (exists p e,
      fst (WrapWithCustomErr example_runtime [4%Z] sqlErr ErrNotFound heap0)
      = ptr_Error p e
      /\ Is (ptr_Error p e) ErrNotFound = true
      /\ Error_GetOriginalPredefinedError e = ErrNotFound)
  /\ (exists p e rest,
         fst (WrapfWithCustomErr example_runtime [4%Z] sqlErr ErrNotFound
                "user %d missing" [VInt 42] heap0) = ptr_Error p e
         /\ Is (ptr_Error p e) ErrNotFound = true
         /\ Error_Error e = Ret ("user 42 missing: " ++ rest)).
Proof.
  apply (C4_sentinel_wrapping example_runtime [4%Z] sqlErr heap0).
  discriminate.
Defined.

Example WrapfWithCustomErr_run :
  let (result, _) :=
    WrapfWithCustomErr example_runtime [4%Z] sqlErr ErrNotFound
      "user %d missing" [VInt 42] heap0 in
  error_Error result
  = Ret "user 42 missing: entity not found: sql: no rows in result set"
  /\ Unwrap (Unwrap result) = ErrNotFound.
Proof. split; reflexivity. Qed.

(** ** Message and GetOriginalErrorMessage *)

Lemma last_default {A : Type} (l : list A) (x a b : A) :
  last (x :: l) a = last (x :: l) b.
Proof.
  revert x. induction l as [|y l IH]; intros x; [reflexivity|].
  change (last (y :: l) a = last (y :: l) b). apply IH.
Qed.

Lemma fold_left_keep_last (l : list error) (acc : error) :
  fold_left (fun _ err => err) l acc = last l acc.
Proof.
  revert acc. induction l as [|x l IH]; intros acc; cbn [fold_left].
  - reflexivity.
  - rewrite IH. destruct l as [|y l]; [reflexivity|].
    change (last (y :: l) x = last (y :: l) acc). apply last_default.
Qed.

Lemma chain_links_not_nil (x y : error) : In y (chain x) -> is_nil y = false.
Proof.
  induction x as [|x Hx IH] using error_chain_ind.
  - intros [].
  - rewrite (chain_unfold x Hx). intros [<-|Hin]; auto.
Qed.

Lemma last_in {A : Type} (l : list A) (d : A) : l <> [] -> In (last l d) l.
Proof.
  induction l as [|x l IH]; [congruence|]. intros _.
  destruct l as [|y l]; [now left|].
  right. apply IH. discriminate.
Qed.

Lemma deepest_not_nil (x : error) : is_nil x = false -> is_nil (deepest x) = false.
Proof.
  intros Hx. apply (chain_links_not_nil x). unfold deepest.
  apply last_in. rewrite (chain_unfold x Hx). discriminate.
Qed.

(** What the loop of GetOriginalErrorMessage leaves in [originalErr]: nil when
    the immediate cause has no cause of its own, the deepest link otherwise;
    either way the message used is the one of the deepest link. *)
Lemma GetOriginalErrorMessage_with_cause (e : Error) :
  is_nil (error_ e) = false ->
  exists m,
    error_Error (deepest (error_ e)) = Ret m
    /\ Error_GetOriginalErrorMessage e
       = Ret (if String.eqb (Description e) "" then m
              else Description e ++ ": " ++ m).
Proof.
  destruct e as [d c st]. cbn [error_ Description]. intros Hc.
  destruct (error_Error_total _ (deepest_not_nil c Hc)) as [m Hm].
  exists m. split; [exact Hm|].
  unfold Error_GetOriginalErrorMessage. cbn [error_ Description].
  rewrite fold_left_keep_last.
  unfold deepest in Hm. rewrite (chain_unfold c Hc) in Hm.
  destruct (chain (Unwrap c)) as [|y l] eqn:Hl.
  - cbn [last is_nil negb]. cbn [last] in Hm. rewrite Hm.
    destruct (String.eqb d ""); reflexivity.
  - assert (Hlast : last (y :: l) nil_error = last (c :: y :: l) nil_error)
      by reflexivity.
    assert (Hnn : is_nil (last (y :: l) nil_error) = false).
    { apply (chain_links_not_nil (Unwrap c)). rewrite Hl.
      apply last_in. discriminate. }
    rewrite Hnn. cbn [negb]. rewrite Hlast, Hm.
    destruct (String.eqb d ""); reflexivity.
Qed.

Example GetOriginalErrorMessage_run :
  Error_GetOriginalErrorMessage
    (mkError "handler" (fmt_wrapError 31 "load: query" sqlErr) None)
  = Ret "handler: sql: no rows in result set"
  /\ Error_GetOriginalErrorMessage
       (mkError "" (fmt_wrapError 31 "load: query" sqlErr) None)
     = Ret "sql: no rows in result set"
  /\ Error_GetOriginalErrorMessage (mkError "" sqlErr None)
     = Ret "sql: no rows in result set".
Proof. repeat split; reflexivity. Qed.

(** C5. On an Error without cause, such as the one New(d) builds,
    GetOriginalErrorMessage calls Error() on a nil interface and panics,
    where Error() itself returns d. *)
Theorem C5_GetOriginalErrorMessage_without_cause :
  forall (d : string) (h : heap),
  exists e,
    New d h = (ptr_Error h e, S h)
    /\ Error_Error e = Ret d
    /\ Error_GetOriginalErrorMessage e = Panic.
Proof.
  intros d h. exists (mkError d nil_error None).
  split; [reflexivity|]. split; [reflexivity|].
  unfold Error_GetOriginalErrorMessage. cbn.
  destruct (String.eqb d ""); reflexivity.
Qed.

Lemma Message_with_description (e : Error) :
  Description e <> "" -> Error_Message e = Ret (Description e).
Proof.
  intros Hd. unfold Error_Message.
  destruct (String.eqb_spec (Description e) ""); [contradiction | reflexivity].
Qed.

Lemma Message_of_cause (e : Error) :
  Description e = "" ->
  is_nil (error_ e) = false ->
  exists m, error_Error (error_ e) = Ret m /\ Error_Message e = Ret m.
Proof.
  intros Hd Hc. destruct (error_Error_total _ Hc) as [m Hm].
  exists m. split; [exact Hm|].
  unfold Error_Message. rewrite Hd. exact Hm.
Qed.

(** C6. On an Error with an empty description and no cause, such as the one
    New("") builds, Message() calls Error() on a nil interface and panics,
    where Error() on the same value returns the empty string. *)
Theorem C6_Message_empty_description_without_cause :
  forall (h : heap),
  exists e,
    New "" h = (ptr_Error h e, S h)
    /\ Error_Error e = Ret ""
    /\ Error_Message e = Panic.
Proof.
  intros h. exists (mkError "" nil_error None). repeat split.
Qed.

(** ** GetCallStack *)

Lemma GetCallStack_loop_spec (frames : list Frame) :
  forall acc,
    GetCallStack_loop frames acc
    = (acc ++ map formatFrame (known_prefix (yielded frames)))%list.
Proof.
  induction frames as [|f rest IH]; intros acc.
  - reflexivity.
  - cbn [GetCallStack_loop Frames_Next yielded known_prefix].
    destruct (String.eqb (Function f) "unknown") eqn:Hf.
    + now rewrite app_nil_r.
    + destruct rest as [|g rest'].
      * reflexivity.
      * cbn [length Nat.eqb negb]. rewrite IH.
        cbn [yielded map]. now rewrite <- app_assoc.
Qed.







(** ** Wrapping and unwrapping several times *)

Lemma wrap_with_result (rt : Runtime) (c : wrap_call) (e : error) (h : heap) :
  is_nil e = false ->
  exists d st, wrap_with rt c e h = (ptr_Error h (mkError d e st), S h).
Proof.
  intros He. destruct c as [cs d | cs format args]; cbn;
    [unfold Wrap | unfold Wrapf]; rewrite He; unfold bind, alloc, ret; eauto.
Qed.

Lemma chain_length_wrapper (p : nat) (d : string) (e : error) (st : option Stack) :
  length (chain (ptr_Error p (mkError d e st))) = S (length (chain e)).
Proof. reflexivity. Qed.

(** After [k] unwraps of [n] wraps, the value is the wrapper allocated by
    call number [n - 1 - k]; after [n] unwraps it is the wrapped error. *)
Lemma wrap_all_unwrap (rt : Runtime) (calls : list wrap_call) :
  forall (e : error) (h : heap),
    is_nil e = false ->
    Unwrap_n (length calls) (fst (wrap_all rt calls e h)) = e
    /\ (forall k, k < length calls ->
        exists e', Unwrap_n k (fst (wrap_all rt calls e h))
                   = ptr_Error (h + (length calls - 1 - k)) e')
    /\ (forall k, k <= length calls ->
        length (chain (Unwrap_n k (fst (wrap_all rt calls e h))))
        = length (chain e) + (length calls - k)).
Proof.
  induction calls as [|c rest IH]; intros e h He.
  - cbn. repeat split.
    + intros k Hk. lia.
    + intros k Hk. assert (k = 0) as -> by lia. cbn. lia.
  - destruct (wrap_with_result rt c e h He) as (d & st & Hw).
    cbn [wrap_all length]. unfold bind. rewrite Hw.
    set (w1 := ptr_Error h (mkError d e st)).
    destruct (IH w1 (S h) eq_refl) as (Hn & Hk & Hlen).
    set (W := fst (wrap_all rt rest w1 (S h))) in *.
    split; [|split].
    + rewrite Unwrap_n_succ, Hn. reflexivity.
    + intros k Hlt. destruct (Nat.eq_dec k (length rest)) as [->|Hne].
      * rewrite Hn. exists (mkError d e st). unfold w1. f_equal. lia.
      * destruct (Hk k ltac:(lia)) as [e' He']. exists e'.
        rewrite He'. f_equal. lia.
    + intros k Hle. destruct (Nat.eq_dec k (S (length rest))) as [->|Hne].
      * rewrite Unwrap_n_succ, Hn. cbn [w1 Unwrap Error_Unwrap error_]. lia.
      * rewrite (Hlen k ltac:(lia)). unfold w1.
        rewrite chain_length_wrapper. lia.
Qed.

Lemma go_eq_fresh_wrapper (h q : nat) (e' : Error) (e : error) :
  allocated_before h e -> h <= q -> go_eq (ptr_Error q e') e = false.
Proof.
  destruct e; cbn; auto. intros Hp Hq. apply Nat.eqb_neq. lia.
Qed.

Lemma go_eq_new_Error (h q : nat) (e' : Error) (y : error) :
  heap_below h y -> h <= q -> go_eq (ptr_Error q e') y = false.
Proof.
  destruct y; cbn [go_eq heap_below]; auto.
  intros Hy Hq. apply Nat.eqb_neq. lia.
Qed.

Lemma go_eq_new_wrapError (h q : nat) (m : string) (c y : error) :
  heap_below h y -> h <= q -> go_eq (fmt_wrapError q m c) y = false.
Proof.
  destruct y; cbn [go_eq heap_below]; auto.
  intros Hy Hq. apply Nat.eqb_neq. lia.
Qed.

(** C8, as the code has it. With Wrap and Wrapf, wrapping a non-nil e n times
    and unwrapping the result n times yields e, and after fewer unwraps the
    value is one of the wrappers, different from e (and not == to it when e
    was allocated before the wraps). With WrapWithCustomErr and
    WrapfWithCustomErr and a non-nil wrapping error, k + 2 unwraps of the
    result yield what k unwraps of the wrapping error yield (two unwraps
    yield the wrapping error itself), so an original error allocated before
    the call is reached by unwrapping the result only if it is reached by
    unwrapping the wrapping error. *)
Theorem C8_wrap_unwrap_roundtrip :
  forall (rt : Runtime) (calls : list wrap_call) (e wrappingErr : error)
         (cs : Stack) (format : string) (args : list any) (h : heap),
    e <> nil_error ->
    (Unwrap_n (length calls) (fst (wrap_all rt calls e h)) = e
     /\ forall k, k < length calls ->
          Unwrap_n k (fst (wrap_all rt calls e h)) <> e
          /\ (allocated_before h e ->
              go_eq (Unwrap_n k (fst (wrap_all rt calls e h))) e = false))
    /\ (wrappingErr <> nil_error ->
        (forall k,
            Unwrap_n (S (S k)) (fst (WrapWithCustomErr rt cs e wrappingErr h))
            = Unwrap_n k wrappingErr
            /\ Unwrap_n (S (S k))
                 (fst (WrapfWithCustomErr rt cs e wrappingErr format args h))
               = Unwrap_n k wrappingErr)
        /\ (heap_below h e ->
            (forall k, go_eq (Unwrap_n k wrappingErr) e = false) ->
            forall k,
              go_eq (Unwrap_n k (fst (WrapWithCustomErr rt cs e wrappingErr h))) e
              = false
              /\ go_eq (Unwrap_n k
                          (fst (WrapfWithCustomErr rt cs e wrappingErr format args h)))
                   e = false)).
Proof.
  intros rt calls e wrappingErr cs format args h He.
  apply is_nil_false in He.
  destruct (wrap_all_unwrap rt calls e h He) as (Hn & Hk & Hlen).
  split; [split|].
  - exact Hn.
  - intros k Hlt. split.
    + intros Heq. specialize (Hlen k ltac:(lia)). rewrite Heq in Hlen. lia.
    + intros Hfresh. destruct (Hk k Hlt) as [e' ->].
      apply (go_eq_fresh_wrapper h); [exact Hfresh | lia].
  - intros Hw. apply is_nil_false in Hw.
    destruct (Errorf_w_v rt wrappingErr e h Hw He) as [msg HE].
    unfold WrapWithCustomErr, WrapfWithCustomErr, bind.
    rewrite He, HE. unfold alloc, ret. cbn [fst]. split.
    + intros k. split; reflexivity.
    + intros Hbelow Hnot k. destruct k as [|[|k]].
      * cbn [Unwrap_n].
        split; apply (go_eq_new_Error h (S h)); auto.
      * cbn [Unwrap_n Unwrap Error_Unwrap error_].
        split; apply (go_eq_new_wrapError h h); auto.
      * change (go_eq (Unwrap_n k wrappingErr) e = false
                /\ go_eq (Unwrap_n k wrappingErr) e = false).
        split; apply Hnot.
Qed.

Lemma C8_witness :
  Unwrap_n 3 (fst (wrap_all example_runtime three_wraps sqlErr heap0)) = sqlErr
  /\ Unwrap_n 2 (fst (wrap_all example_runtime three_wraps sqlErr heap0)) <> sqlErr
  /\ go_eq (Unwrap_n 2 (fst (wrap_all example_runtime three_wraps sqlErr heap0)))
       sqlErr = false
  /\ Unwrap_n 2 (fst (WrapWithCustomErr example_runtime [4%Z] sqlErr
                        ErrNotFound heap0)) = Unwrap_n 0 ErrNotFound
  /\ Unwrap_n 2 (fst (WrapfWithCustomErr example_runtime [4%Z] sqlErr
                        ErrNotFound "user %d missing" [VInt 42] heap0))
     = Unwrap_n 0 ErrNotFound
  /\ (forall k,
        go_eq (Unwrap_n k (fst (WrapWithCustomErr example_runtime [4%Z] sqlErr
                                  ErrNotFound heap0))) sqlErr = false
        /\ go_eq (Unwrap_n k
                    (fst (WrapfWithCustomErr example_runtime [4%Z] sqlErr
                            ErrNotFound "user %d missing" [VInt 42] heap0)))
             sqlErr = false).
Proof.
  assert (Hsql : sqlErr <> nil_error) by discriminate.
  assert (Hnf : ErrNotFound <> nil_error) by discriminate.
  assert (Hnot : forall k, go_eq (Unwrap_n k ErrNotFound) sqlErr = false).
  { intros [|k]; [reflexivity|].
    change (Unwrap_n (S k) ErrNotFound) with (Unwrap_n k nil_error).
    now rewrite Unwrap_n_nil. }
  destruct (C8_wrap_unwrap_roundtrip example_runtime three_wraps sqlErr
              ErrNotFound [4%Z] "user %d missing" [VInt 42] heap0 Hsql)
    as [[Hn Hk] Hc].
  destruct (Hk 2 (le_n 3)) as [Hne Hgo].
  destruct (Hc Hnf) as [Hc1 Hc2].
  split; [exact Hn|].
  split; [exact Hne|].
  split; [apply Hgo; exact I|].
  split; [exact (proj1 (Hc1 0))|].
  split; [exact (proj2 (Hc1 0))|].
  exact (Hc2 I Hnot).
Defined.

(** C8, as stated, fails for WrapWithCustomErr: the original error is not a
    link of the result's chain, so no number of unwraps yields it; one
    unwrap gives the composite built by fmt.Errorf, the next the sentinel,
    the next nil. *)
Lemma C8_counterexample :
  Unwrap_n 1 (fst (WrapWithCustomErr example_runtime [4%Z] sqlErr ErrNotFound heap0))
  = fmt_wrapError heap0 "entity not found: sql: no rows in result set" ErrNotFound
  /\ forall k,
      Unwrap_n k (fst (WrapWithCustomErr example_runtime [4%Z] sqlErr
                         ErrNotFound heap0)) <> sqlErr
      /\ go_eq (Unwrap_n k (fst (WrapWithCustomErr example_runtime [4%Z] sqlErr
                                  ErrNotFound heap0))) sqlErr = false.
Proof.
  split; [reflexivity|].
  intros [|[|[|k]]]; try (split; [discriminate | reflexivity]).
  change (Unwrap_n (S (S (S k))) _) with (Unwrap_n k nil_error).
  rewrite Unwrap_n_nil. split; [discriminate | reflexivity].
Qed.

(** ** Nil receivers and description-less receivers *)

(** C9. GetCallStack() on a nil pointer returns nil without reading the
    receiver, the same result as on an Error that has no captured stack. *)
Theorem C9_GetCallStack_nil_receiver :
  forall (rt : Runtime) (p : nat) (d : string) (c : error),
    Error_GetCallStack rt nil_pError = None
    /\ Error_GetCallStack rt nil_pError
       = Error_GetCallStack rt (ref p (mkError d c None)).
Proof. intros. split; reflexivity. Qed.

Lemma Error_Wrap_wraps (cs : Stack) (e : Error) (err : error) (h : heap) :
  err <> nil_error ->
  Description e <> "" ->
  Error_Wrap cs e err h
  = (ptr_Error h (mkError (Description e) err (callers cs)), S h).
Proof.
  intros Herr Hd. apply is_nil_false in Herr. unfold Error_Wrap.
  rewrite Herr. destruct (String.eqb_spec (Description e) ""); [contradiction|].
  reflexivity.
Qed.

Example Error_Wrapf_run :
  fst (Error_Wrapf example_runtime [4%Z] (mkError "storage" nil_error None)
         "loading user" sqlErr heap0)
  = fmt_wrapError (S heap0) "loading user :storage"
      (ptr_Error heap0 (mkError "storage" sqlErr (Some [4%Z]))).
Proof. reflexivity. Qed.

(** C10. The methods Wrap(err) and Wrapf(format, err) of an Error return nil
    when err is nil, and also when the receiver's Description is empty, even
    for a non-nil err: the wrapped error is dropped and nothing allocated. *)
Theorem C10_Error_Wrap_needs_description :
  forall (rt : Runtime) (cs : Stack) (e : Error) (format : string)
         (err : error) (h : heap),
    err = nil_error \/ Description e = "" ->
    Error_Wrap cs e err h = (nil_error, h)
    /\ Error_Wrapf rt cs e format err h = (nil_error, h).
Proof.
  intros rt cs e format err h [-> | Hd]; unfold Error_Wrap, Error_Wrapf.
  - split; reflexivity.
  - rewrite Hd. cbn [String.eqb]. rewrite orb_true_r. split; reflexivity.
Qed.

Lemma C10_witness :
  Error_Wrap [4%Z] (mkError "" nil_error None) sqlErr heap0 = (nil_error, heap0)
  /\ Error_Wrapf example_runtime [4%Z] (mkError "" nil_error None)
       "loading user" sqlErr heap0 = (nil_error, heap0).
Proof.
  apply (C10_Error_Wrap_needs_description example_runtime [4%Z]
           (mkError "" nil_error None) "loading user" sqlErr heap0).
  right. reflexivity.
Defined.

(** * Further properties of the package *)

(** ** Messages of wrapped errors *)

Lemma wrap_with_description (rt : Runtime) (c : wrap_call) (e : error) (h : heap) :
  is_nil e = false ->
  exists st,
    wrap_with rt c e h
    = (ptr_Error h (mkError (call_description rt c) e (Some st)), S h).
Proof.
  intros He. destruct c as [cs d | cs format args]; cbn;
    [unfold Wrap | unfold Wrapf]; rewrite He; unfold bind, alloc, ret, callers;
    eauto.
Qed.

Lemma wrap_all_app (rt : Runtime) (calls : list wrap_call) (c : wrap_call) :
  forall (e : error) (h : heap),
    wrap_all rt (calls ++ [c])%list e h
    = wrap_with rt c (fst (wrap_all rt calls e h)) (snd (wrap_all rt calls e h)).
Proof.
  induction calls as [|c0 rest IH]; intros e h.
  - cbn. unfold bind, ret. destruct (wrap_with rt c e h). reflexivity.
  - cbn [app wrap_all]. unfold bind.
    destruct (wrap_with rt c0 e h) as [w h']. apply IH.
Qed.

Lemma wrap_all_not_nil (rt : Runtime) (calls : list wrap_call) :
  forall (e : error) (h : heap),
    is_nil e = false -> is_nil (fst (wrap_all rt calls e h)) = false.
Proof.
  induction calls as [|c rest IH]; intros e h He; [exact He|].
  destruct (wrap_with_description rt c e h He) as [st Hw].
  cbn [wrap_all]. unfold bind. rewrite Hw. now apply IH.
Qed.

Lemma deepest_wrapper (p : nat) (d : string) (e : error) (st : option Stack) :
  is_nil e = false ->
  deepest (ptr_Error p (mkError d e st)) = deepest e.
Proof.
  intros He. unfold deepest.
  change (chain (ptr_Error p (mkError d e st)))
    with (ptr_Error p (mkError d e st) :: chain e).
  rewrite (chain_unfold e He). reflexivity.
Qed.

Lemma deepest_wrap_all (rt : Runtime) (calls : list wrap_call) :
  forall (e : error) (h : heap),
    is_nil e = false -> deepest (fst (wrap_all rt calls e h)) = deepest e.
Proof.
  induction calls as [|c rest IH]; intros e h He; [reflexivity|].
  destruct (wrap_with_description rt c e h He) as [st Hw].
  cbn [wrap_all]. unfold bind. rewrite Hw.
  rewrite IH by reflexivity. now apply deepest_wrapper.
Qed.

(** X1. When the wrapped error is not nil, GetOriginalErrorMessage returns
    the message of the deepest link of the cause chain, prefixed by the
    description and ": " when the description is not empty; the descriptions
    of the links in between do not appear. *)
Theorem X1_GetOriginalErrorMessage_deepest :
  forall (e : Error),
    error_ e <> nil_error ->
    exists m,
      error_Error (deepest (error_ e)) = Ret m
      /\ Error_GetOriginalErrorMessage e
         = Ret (if String.eqb (Description e) "" then m
                else Description e ++ ": " ++ m).
Proof.
  intros e He. apply GetOriginalErrorMessage_with_cause.
  now apply is_nil_false.
Qed.

Lemma X1_witness :
  exists m,
    error_Error (deepest load_error) = Ret m
    /\ Error_GetOriginalErrorMessage handler_Error
       = Ret (if String.eqb "handler" "" then m else "handler" ++ ": " ++ m).
Proof.
  apply (X1_GetOriginalErrorMessage_deepest handler_Error). discriminate.
Defined.

(** X2. The Error() of an error wrapped by successive Wrap and Wrapf calls
    is the descriptions of the calls, outermost first, each followed by
    ": ", and then the message of the wrapped error. *)
Theorem X2_Error_of_nested_wraps :
  forall (rt : Runtime) (calls : list wrap_call) (e : error) (h : heap),
    e <> nil_error ->
    exists m,
      error_Error e = Ret m
      /\ error_Error (fst (wrap_all rt calls e h))
         = Ret (joined_descriptions rt calls m).
Proof.
  intros rt calls. induction calls as [|c rest IH]; intros e h He.
  - apply is_nil_false in He. destruct (error_Error_total e He) as [m Hm].
    exists m. split; [exact Hm | exact Hm].
  - apply is_nil_false in He.
    destruct (wrap_with_description rt c e h He) as [st Hw].
    destruct (Error_Error_with_cause (call_description rt c) e (Some st) He)
      as [m [Hm HE]].
    exists m. split; [exact Hm|].
    cbn [wrap_all]. unfold bind. rewrite Hw.
    destruct (IH (ptr_Error h (mkError (call_description rt c) e (Some st)))
                (S h) ltac:(discriminate)) as [m' [Hm' HW]].
    cbn [error_Error] in Hm'. rewrite HE in Hm'. injection Hm' as <-.
    exact HW.
Qed.

Lemma X2_witness :
  exists m,
    error_Error sqlErr = Ret m
    /\ error_Error (fst (wrap_all example_runtime three_wraps sqlErr heap0))
       = Ret (joined_descriptions example_runtime three_wraps m).
Proof.
  apply (X2_Error_of_nested_wraps example_runtime three_wraps sqlErr heap0).
  discriminate.
Defined.

Example Error_of_three_wraps :
  error_Error (fst (wrap_all example_runtime three_wraps sqlErr heap0))
  = Ret "handler: user 42: query: sql: no rows in result set".
Proof. reflexivity. Qed.

(** X3. On an error wrapped by successive Wrap and Wrapf calls,
    GetOriginalErrorMessage shows the description of the outermost call only
    (when it is not empty) and the message of the deepest link of the
    wrapped error: the descriptions of the inner calls are skipped. *)
Theorem X3_GetOriginalErrorMessage_of_nested_wraps :
  forall (rt : Runtime) (calls : list wrap_call) (c : wrap_call) (e : error)
         (h : heap),
    e <> nil_error ->
    exists p w m,
      fst (wrap_all rt (calls ++ [c])%list e h) = ptr_Error p w
      /\ error_Error (deepest e) = Ret m
      /\ Error_GetOriginalErrorMessage w
         = Ret (if String.eqb (call_description rt c) "" then m
                else call_description rt c ++ ": " ++ m).
Proof.
  intros rt calls c e h He. apply is_nil_false in He.
  rewrite wrap_all_app.
  pose proof (wrap_all_not_nil rt calls e h He) as HW.
  destruct (wrap_with_description rt c _ (snd (wrap_all rt calls e h)) HW)
    as [st Hw].
  rewrite Hw. cbn [fst].
  set (w := mkError (call_description rt c) (fst (wrap_all rt calls e h)) (Some st)).
  destruct (GetOriginalErrorMessage_with_cause w HW) as [m [Hm HG]].
  exists (snd (wrap_all rt calls e h)), w, m.
  split; [reflexivity|]. split; [|exact HG].
  cbn [w error_] in Hm. now rewrite (deepest_wrap_all rt calls e h He) in Hm.
Qed.

Lemma X3_witness :
  exists p w m,
    fst (wrap_all example_runtime
           ([ByWrap [4%Z] "query"; ByWrapf [5%Z] "user %d" [VInt 42]]
            ++ [ByWrap [6%Z] "handler"])%list sqlErr heap0) = ptr_Error p w
    /\ error_Error (deepest sqlErr) = Ret m
    /\ Error_GetOriginalErrorMessage w
       = Ret (if String.eqb (call_description example_runtime
                               (ByWrap [6%Z] "handler")) "" then m
              else call_description example_runtime (ByWrap [6%Z] "handler")
                   ++ ": " ++ m).
Proof.
  apply (X3_GetOriginalErrorMessage_of_nested_wraps example_runtime
           [ByWrap [4%Z] "query"; ByWrapf [5%Z] "user %d" [VInt 42]]
           (ByWrap [6%Z] "handler") sqlErr heap0).
  discriminate.
Defined.

Example GetOriginalErrorMessage_of_three_wraps :
  match fst (wrap_all example_runtime three_wraps sqlErr heap0) with
  | ptr_Error _ w =>
      Error_GetOriginalErrorMessage w = Ret "handler: sql: no rows in result set"
  | _ => False
  end.
Proof. reflexivity. Qed.

(** X4. Message() returns the description alone when it is not empty, so the
    cause is not shown; with an empty description and a non-nil cause it
    returns the cause's Error(); it panics exactly when the description is
    empty and the cause is nil. *)
Theorem X4_Message_cases :
  forall (e : Error),
    (Description e <> "" -> Error_Message e = Ret (Description e))
    /\ (Description e = "" -> error_ e <> nil_error ->
        exists m, error_Error (error_ e) = Ret m /\ Error_Message e = Ret m)
    /\ (Error_Message e = Panic <-> Description e = "" /\ error_ e = nil_error).
Proof.
  intros e. split; [|split].
  - apply Message_with_description.
  - intros Hd Hc. apply Message_of_cause; [exact Hd | now apply is_nil_false].
  - unfold Error_Message.
    destruct (String.eqb_spec (Description e) "") as [Hd|Hd].
    + destruct (error_ e) eqn:Hc.
      * cbn. split; auto.
      * cbn. split; [discriminate | intros [_ H]; discriminate].
      * cbn. split; [discriminate | intros [_ H]; discriminate].
      * destruct (error_Error_total (ptr_Error p e0) eq_refl) as [m Hm].
        rewrite Hm. split; [discriminate | intros [_ H]; discriminate].
    + split; [discriminate | intros [H _]; contradiction].
Qed.

Lemma X4_witness :
  Error_Message handler_Error = Ret "handler"
  /\ (exists m, error_Error sqlErr = Ret m
                /\ Error_Message (mkError "" sqlErr None) = Ret m)
  /\ Error_Message (mkError "" nil_error None) = Panic.
Proof.
  split; [|split].
  - apply (X4_Message_cases handler_Error). discriminate.
  - apply (X4_Message_cases (mkError "" sqlErr None)); [reflexivity | discriminate].
  - apply (X4_Message_cases (mkError "" nil_error None)). split; reflexivity.
Defined.

(** ** The innermost link with a property *)

Lemma last_such_none (f : error -> bool) (l : list error) :
  last_such f l = None <-> existsb f l = false.
Proof.
  induction l as [|x l IH]; cbn; [tauto|].
  destruct (last_such f l) as [y|].
  - split; [discriminate|]. intros H. apply orb_false_iff in H.
    destruct H as [_ H]. apply IH in H. discriminate.
  - assert (Hl : existsb f l = false) by now apply IH.
    rewrite Hl, orb_false_r. destruct (f x); split; congruence.
Qed.

Lemma last_such_some (f : error -> bool) (l : list error) (y : error) :
  last_such f l = Some y ->
  exists l1 l2, l = (l1 ++ y :: l2)%list /\ f y = true /\ existsb f l2 = false.
Proof.
  revert y. induction l as [|x l IH]; intros y; cbn; [discriminate|].
  destruct (last_such f l) as [z|] eqn:Hz.
  - intros H. injection H as <-.
    destruct (IH z eq_refl) as (l1 & l2 & -> & Hf & Hl2).
    exists (x :: l1), l2. auto.
  - destruct (f x) eqn:Hx; [|discriminate].
    intros H. injection H as <-. exists [], l.
    repeat split; auto. now apply last_such_none.
Qed.

(** ** GetOriginalPredefinedError *)

Lemma go_eq_sym (a b : error) : go_eq a b = go_eq b a.
Proof. destruct a, b; cbn; auto using Nat.eqb_sym. Qed.

Lemma package_vars_not_nil (s : error) : In s package_vars -> is_nil s = false.
Proof.
  unfold package_vars. cbn. intros H.
  repeat (destruct H as [<-|H]; [reflexivity|]). destruct H.
Qed.

Lemma Is_existsb (x s : error) :
  is_nil s = false -> Is x s = existsb (fun l => go_eq l s) (chain x).
Proof.
  intros Hs. unfold Is. rewrite Hs, orb_false_r.
  destruct x; cbn [is_nil]; try reflexivity.
  destruct s; [discriminate | reflexivity ..].
Qed.

Lemma is_predefined_existsb (x : error) :
  is_predefined x = existsb (Is x) package_vars.
Proof.
  unfold is_predefined.
  change package_vars
    with [ErrBadRequest; ErrUnauthorized; ErrRegistrationRequired;
          ErrPaymentError; ErrForbiddenAction; ErrNotFound; ErrConflict;
          ErrPreconditionFailed; ErrValidation; ErrInternalServerError].
  cbn [existsb]. rewrite orb_false_r, !orb_assoc. reflexivity.
Qed.

(** A link passes the [switch] when it or a link below it is a sentinel. *)
Lemma is_predefined_chain (x : error) :
  is_predefined x = existsb is_sentinel (chain x).
Proof.
  rewrite is_predefined_existsb. apply eq_iff_eq_true.
  rewrite !existsb_exists. split.
  - intros (s & Hs & HIs).
    rewrite (Is_existsb x s (package_vars_not_nil s Hs)) in HIs.
    apply existsb_exists in HIs. destruct HIs as (l & Hl & Hgo).
    exists l. split; [exact Hl|]. unfold is_sentinel.
    apply existsb_exists. eauto.
  - intros (l & Hl & Hsen). unfold is_sentinel in Hsen.
    apply existsb_exists in Hsen. destruct Hsen as (s & Hs & Hgo).
    exists s. split; [exact Hs|].
    rewrite (Is_existsb x s (package_vars_not_nil s Hs)).
    apply existsb_exists. eauto.
Qed.

Lemma GetOriginalPredefinedError_loop_spec (x : error) :
  forall predefinedErr,
    GetOriginalPredefinedError_loop (chain x) predefinedErr
    = match last_such is_sentinel (chain x) with
      | Some s => s
      | None => predefinedErr
      end.
Proof.
  induction x as [|x Hx IH] using error_chain_ind; intros pred.
  - reflexivity.
  - pose proof (is_predefined_chain x) as Hp.
    rewrite (chain_unfold x Hx) in *.
    cbn [GetOriginalPredefinedError_loop last_such existsb] in *.
    rewrite Hp, IH.
    destruct (last_such is_sentinel (chain (Unwrap x))) as [y|] eqn:Hy.
    + destruct (last_such_some _ _ _ Hy) as (l1 & l2 & Hl & Hf & _).
      assert (He : existsb is_sentinel (chain (Unwrap x)) = true).
      { rewrite Hl, existsb_app. cbn [existsb]. now rewrite Hf, orb_true_r. }
      now rewrite He, orb_true_r.
    + apply last_such_none in Hy. rewrite Hy, orb_false_r.
      destruct (is_sentinel x); reflexivity.
Qed.

(** X5. GetOriginalPredefinedError returns the deepest link that is one of
    the ten sentinels among the links strictly below the immediate cause;
    when there is none it returns the immediate cause unchanged (nil
    included), whether or not that cause is itself a sentinel. *)
Theorem X5_GetOriginalPredefinedError_deepest_sentinel :
  forall (e : Error),
    Error_GetOriginalPredefinedError e
    = match last_such is_sentinel (chain (Unwrap (error_ e))) with
      | Some s => s
      | None => error_ e
      end.
Proof.
  intros e. unfold Error_GetOriginalPredefinedError.
  apply GetOriginalPredefinedError_loop_spec.
Qed.

Example GetOriginalPredefinedError_runs :
  Error_GetOriginalPredefinedError (mkError "plain" sqlErr None) = sqlErr
  /\ Error_GetOriginalPredefinedError (mkError "direct" ErrNotFound None)
     = ErrNotFound
  /\ Error_GetOriginalPredefinedError (mkError "none" nil_error None) = nil_error
  /\ Error_GetOriginalPredefinedError
       (mkError "outer"
          (fst (WrapWithCustomErr example_runtime [4%Z] sqlErr ErrValidation heap0))
          None) = ErrValidation.
Proof. repeat split; reflexivity. Qed.

(** ** Traversal in general *)

Lemma last_such_holds (f : error -> bool) (l : list error) (y : error) :
  last_such f l = Some y -> f y = true.
Proof.
  intros H. destruct (last_such_some f l y H) as (_ & _ & _ & Hf & _). exact Hf.
Qed.

Lemma no_stack_in_none (l : list error) :
  last_such has_stack l = None -> no_stack_in l = true.
Proof.
  intros H. apply last_such_none in H. unfold no_stack_in.
  induction l as [|x l IH]; [reflexivity|].
  cbn in *. apply orb_false_iff in H. destruct H as [Hx Hl].
  rewrite Hx. cbn. now apply IH.
Qed.

Lemma FindOriginalErrorWithStack_loop_spec (rt : Runtime) (x : error) :
  forall last,
    FindOriginalErrorWithStack_loop rt x last
    = match last_such has_stack (chain x) with
      | Some y => as_pError (Some y)
      | None => last
      end.
Proof.
  induction x as [|x Hx IH] using error_chain_ind; intros last.
  - reflexivity.
  - unfold FindOriginalErrorWithStack_loop in *.
    rewrite (chain_unfold x Hx). cbn [fold_left last_such].
    rewrite IH.
    destruct (last_such has_stack (chain (Unwrap x))) as [y|] eqn:Hy;
      [reflexivity|].
    destruct (has_stack x) eqn:Hs.
    + destruct x as [| | |p [d c [st|]]]; try discriminate.
      unfold FindOriginalErrorWithStack_body. rewrite As_ptr_Error. reflexivity.
    + apply FindOriginalErrorWithStack_body_skip.
      rewrite (chain_unfold x Hx). unfold no_stack_in. cbn [forallb].
      rewrite Hs. cbn. now apply no_stack_in_none.
Qed.

Lemma FindOriginalErrorWithStack_last_such (rt : Runtime) (err : error) :
  FindOriginalErrorWithStack rt err = as_pError (last_such has_stack (chain err)).
Proof.
  unfold FindOriginalErrorWithStack.
  rewrite FindOriginalErrorWithStack_loop_spec.
  destruct (last_such has_stack (chain err)); reflexivity.
Qed.

(** X6. FindOriginalErrorWithStack returns the innermost link of the chain
    that is an Error with a captured stack, and nil when no link is. *)
Theorem X6_FindOriginalErrorWithStack_innermost :
  forall (rt : Runtime) (err : error),
    FindOriginalErrorWithStack rt err
    = as_pError (last_such has_stack (chain err)).
Proof.
  intros rt err. apply FindOriginalErrorWithStack_last_such.
Qed.

Lemma As_loop_find (l : list error) :
  As_loop l
  = match find is_ptr_Error l with
    | Some (ptr_Error p e) => (true, ref p e)
    | _ => (false, nil_pError)
    end.
Proof.
  induction l as [|x l IH]; [reflexivity|].
  destruct x; cbn; auto.
Qed.

Lemma FindFirstErrorWithStack_loop_spec (x : error) :
  FindFirstErrorWithStack_loop (chain x)
  = match find is_ptr_Error (chain x) with
    | Some y => y
    | None => nil_error
    end.
Proof.
  induction x as [|x Hx IH] using error_chain_ind; [reflexivity|].
  rewrite (chain_unfold x Hx). cbn [FindFirstErrorWithStack_loop].
  unfold As. rewrite (chain_unfold x Hx).
  destruct x as [|i m c|p m c|p e]; try discriminate.
  - cbn [As_loop find is_ptr_Error]. cbn [Unwrap] in *.
    rewrite As_loop_find.
    destruct (find is_ptr_Error (chain c)) as [[| | |q e']|] eqn:Hf;
      try exact IH. reflexivity.
  - cbn [As_loop find is_ptr_Error]. cbn [Unwrap] in *.
    rewrite As_loop_find.
    destruct (find is_ptr_Error (chain c)) as [[| | |q e']|] eqn:Hf;
      try exact IH. reflexivity.
  - reflexivity.
Qed.

(** X7. FindFirstErrorWithStack returns the outermost link of the chain that
    is an Error of this package, whether or not it carries a stack, and nil
    when the chain has none; an Error is therefore returned as it is. *)
Theorem X7_FindFirstErrorWithStack_outermost_Error :
  forall (err : error) (p : nat) (e : Error),
    FindFirstErrorWithStack err
    = match find is_ptr_Error (chain err) with
      | Some x => x
      | None => nil_error
      end
    /\ FindFirstErrorWithStack (ptr_Error p e) = ptr_Error p e.
Proof.
  intros err p e. split.
  - apply FindFirstErrorWithStack_loop_spec.
  - unfold FindFirstErrorWithStack. rewrite FindFirstErrorWithStack_loop_spec.
    destruct e. reflexivity.
Qed.

(** ** errors.Is through the wrappers *)

Lemma chain_wrap_all (rt : Runtime) (calls : list wrap_call) :
  forall (e : error) (h : heap),
    is_nil e = false ->
    exists ws, chain (fst (wrap_all rt calls e h)) = (ws ++ chain e)%list.
Proof.
  induction calls as [|c rest IH]; intros e h He.
  - exists []. reflexivity.
  - destruct (wrap_with_description rt c e h He) as [st Hw].
    cbn [wrap_all]. unfold bind. rewrite Hw.
    destruct (IH (ptr_Error h (mkError (call_description rt c) e (Some st)))
                (S h) eq_refl) as [ws Hws].
    exists (ws ++ [ptr_Error h (mkError (call_description rt c) e (Some st))])%list.
    rewrite Hws, <- app_assoc. reflexivity.
Qed.

(** X8. Wrapping with Wrap and Wrapf, any number of times, keeps errors.Is:
    a target that matched the wrapped error still matches the result. *)
Theorem X8_Is_survives_wrapping :
  forall (rt : Runtime) (calls : list wrap_call) (e target : error) (h : heap),
    e <> nil_error ->
    Is e target = true ->
    Is (fst (wrap_all rt calls e h)) target = true.
Proof.
  intros rt calls e target h He HIs. apply is_nil_false in He.
  assert (Ht : is_nil target = false).
  { destruct target; try reflexivity.
    unfold Is in HIs. rewrite orb_true_r in HIs.
    destruct e; discriminate. }
  rewrite (Is_existsb e target Ht) in HIs.
  rewrite (Is_existsb (fst (wrap_all rt calls e h)) target Ht).
  destruct (chain_wrap_all rt calls e h He) as [ws ->].
  rewrite existsb_app, HIs. apply orb_true_r.
Qed.

Lemma X8_witness :
  Is (fst (wrap_all example_runtime three_wraps
             (fst (WrapWithCustomErr example_runtime [4%Z] sqlErr ErrNotFound heap0))
             (S (S heap0))))
    ErrNotFound = true.
Proof.
  apply (X8_Is_survives_wrapping example_runtime three_wraps
           (fst (WrapWithCustomErr example_runtime [4%Z] sqlErr ErrNotFound heap0))
           ErrNotFound (S (S heap0))).
  - discriminate.
  - reflexivity.
Defined.

(** ** Wrapping with a custom error, in general *)

Lemma Errorf_w_v_message (rt : Runtime) (wrappingErr originalErr : error) (h : heap) :
  is_nil wrappingErr = false ->
  is_nil originalErr = false ->
  Errorf rt "%w: %v" [VError wrappingErr; VError originalErr] h
  = (fmt_wrapError h
       (operand_text wrappingErr ++ ": " ++ operand_text originalErr)
       wrappingErr, S h).
Proof.
  intros Hw Ho.
  destruct wrappingErr; try discriminate;
    destruct originalErr; try discriminate;
    cbn; unfold ret; rewrite append_empty; reflexivity.
Qed.

(** X9. After WrapWithCustomErr or WrapfWithCustomErr the wrapping error
    matches under errors.Is, and the original error no longer does (unless
    the wrapping error already led to it): the original error is not a link
    of the result. *)
Theorem X9_custom_wrap_drops_original_from_Is :
  forall (rt : Runtime) (cs : Stack) (originalErr wrappingErr : error)
         (format : string) (args : list any) (h : heap),
    originalErr <> nil_error ->
    wrappingErr <> nil_error ->
    heap_below h originalErr ->
    Is wrappingErr originalErr = false ->
    Is (fst (WrapWithCustomErr rt cs originalErr wrappingErr h)) originalErr = false
    /\ Is (fst (WrapfWithCustomErr rt cs originalErr wrappingErr format args h))
         originalErr = false
    /\ Is (fst (WrapWithCustomErr rt cs originalErr wrappingErr h)) wrappingErr = true
    /\ Is (fst (WrapfWithCustomErr rt cs originalErr wrappingErr format args h))
         wrappingErr = true.
Proof.
  intros rt cs o w format args h Ho Hw Hbelow HIs.
  apply is_nil_false in Ho. apply is_nil_false in Hw.
  unfold WrapWithCustomErr, WrapfWithCustomErr, bind.
  rewrite Ho, (Errorf_w_v_message rt w o h Hw Ho).
  unfold alloc, ret. cbn [fst].
  rewrite (Is_existsb w o Ho) in HIs.
  assert (Hchain : forall d,
             Is (ptr_Error (S h)
                   (mkError d (fmt_wrapError h (operand_text w ++ ": " ++ operand_text o) w)
                      (callers cs))) o = false).
  { intros d. rewrite (Is_existsb _ o Ho).
    change (chain (ptr_Error (S h) (mkError d (fmt_wrapError h
              (operand_text w ++ ": " ++ operand_text o) w) (callers cs))))
      with (ptr_Error (S h) (mkError d (fmt_wrapError h
              (operand_text w ++ ": " ++ operand_text o) w) (callers cs))
            :: fmt_wrapError h (operand_text w ++ ": " ++ operand_text o) w
            :: chain w).
    cbn [existsb]. rewrite HIs.
    rewrite (go_eq_new_Error h (S h)) by (auto; lia).
    rewrite (go_eq_new_wrapError h h) by (auto; lia).
    reflexivity. }
  repeat split; auto using Is_through_composite.
Qed.

Lemma X9_witness :
  Is (fst (WrapWithCustomErr example_runtime [4%Z] sqlErr ErrNotFound heap0))
    sqlErr = false
  /\ Is (fst (WrapfWithCustomErr example_runtime [4%Z] sqlErr ErrNotFound
                "user %d missing" [VInt 42] heap0)) sqlErr = false
  /\ Is (fst (WrapWithCustomErr example_runtime [4%Z] sqlErr ErrNotFound heap0))
       ErrNotFound = true
  /\ Is (fst (WrapfWithCustomErr example_runtime [4%Z] sqlErr ErrNotFound
                "user %d missing" [VInt 42] heap0)) ErrNotFound = true.
Proof.
  apply (X9_custom_wrap_drops_original_from_Is example_runtime [4%Z] sqlErr
           ErrNotFound "user %d missing" [VInt 42] heap0).
  - discriminate.
  - discriminate.
  - exact I.
  - reflexivity.
Defined.

(** X10. The Error() of the result of WrapWithCustomErr starts with ": "
    (its description is empty) and continues with the text of the wrapping
    error, ": " and the text of the original error, where an Error of this
    package contributes its description only, not the message of its cause;
    Message() gives the same without the leading ": ". *)
Theorem X10_custom_wrap_message :
  forall (rt : Runtime) (cs : Stack) (originalErr wrappingErr : error) (h : heap),
    originalErr <> nil_error ->
    wrappingErr <> nil_error ->
    exists e,
      WrapWithCustomErr rt cs originalErr wrappingErr h = (ptr_Error (S h) e, S (S h))
      /\ Error_Error e
         = Ret (": " ++ operand_text wrappingErr ++ ": " ++ operand_text originalErr)
      /\ Error_Message e
         = Ret (operand_text wrappingErr ++ ": " ++ operand_text originalErr).
Proof.
  intros rt cs o w h Ho Hw.
  apply is_nil_false in Ho. apply is_nil_false in Hw.
  eexists. unfold WrapWithCustomErr, bind.
  rewrite Ho, (Errorf_w_v_message rt w o h Hw Ho).
  unfold alloc, ret. split; [reflexivity|]. split; reflexivity.
Qed.

Lemma X10_witness :
  exists e,
    WrapWithCustomErr example_runtime [4%Z]
      (ptr_Error 20 (mkError "query" sqlErr None)) ErrNotFound heap0
    = (ptr_Error (S heap0) e, S (S heap0))
    /\ Error_Error e
       = Ret (": " ++ operand_text ErrNotFound ++ ": "
              ++ operand_text (ptr_Error 20 (mkError "query" sqlErr None)))
    /\ Error_Message e
       = Ret (operand_text ErrNotFound ++ ": "
              ++ operand_text (ptr_Error 20 (mkError "query" sqlErr None))).
Proof.
  apply (X10_custom_wrap_message example_runtime [4%Z]
           (ptr_Error 20 (mkError "query" sqlErr None)) ErrNotFound heap0);
    discriminate.
Defined.

Example WrapWithCustomErr_text :
  error_Error
    (fst (WrapWithCustomErr example_runtime [4%Z]
            (ptr_Error 20 (mkError "query" sqlErr None)) ErrNotFound heap0))
  = Ret ": entity not found: query".
Proof. reflexivity. Qed.

(** ** AddCustomCallStack *)

(** X11. For a non-nil err with message m, AddCustomCallStack(err, st)
    returns a new Error with description m, cause err and the given stack,
    so its Error() is m, ": " and m again, its Message() is m when m is not
    empty, and its Unwrap() is err. *)
Theorem X11_AddCustomCallStack_result :
  forall (err : error) (callStack : option Stack) (h : heap),
    err <> nil_error ->
    exists m,
      error_Error err = Ret m
      /\ AddCustomCallStack err callStack h
         = (Ret (ptr_Error h (mkError m err callStack)), S h)
      /\ Error_Error (mkError m err callStack) = Ret (m ++ ": " ++ m)
      /\ (m <> "" -> Error_Message (mkError m err callStack) = Ret m)
      /\ Unwrap (ptr_Error h (mkError m err callStack)) = err.
Proof.
  intros err st h Herr. apply is_nil_false in Herr.
  destruct (Error_Error_with_cause "" err st Herr) as [m [Hm _]].
  exists m. split; [exact Hm|]. split; [|split; [|split]].
  - unfold AddCustomCallStack. rewrite Herr, Hm. reflexivity.
  - destruct (Error_Error_with_cause m err st Herr) as [m' [Hm' HE]].
    rewrite Hm in Hm'. injection Hm' as <-. exact HE.
  - intros Hne. now apply Message_with_description.
  - reflexivity.
Qed.

Lemma X11_witness :
  exists m,
    error_Error sqlErr = Ret m
    /\ AddCustomCallStack sqlErr (Some [7%Z]) heap0
       = (Ret (ptr_Error heap0 (mkError m sqlErr (Some [7%Z]))), S heap0)
    /\ Error_Error (mkError m sqlErr (Some [7%Z])) = Ret (m ++ ": " ++ m)
    /\ (m <> "" -> Error_Message (mkError m sqlErr (Some [7%Z])) = Ret m)
    /\ Unwrap (ptr_Error heap0 (mkError m sqlErr (Some [7%Z]))) = sqlErr.
Proof.
  apply (X11_AddCustomCallStack_result sqlErr (Some [7%Z]) heap0). discriminate.
Defined.

Example AddCustomCallStack_text :
  match fst (AddCustomCallStack sqlErr (Some [7%Z]) heap0) with
  | Ret w =>
      error_Error w
      = Ret "sql: no rows in result set: sql: no rows in result set"
  | Panic => False
  end.
Proof. reflexivity. Qed.

(** ** The methods Wrap and Wrapf of an Error *)

Lemma Is_refl (x : error) : Is x x = true.
Proof.
  destruct x as [| | |p [d c s]]; unfold Is; cbn; auto;
    now rewrite Nat.eqb_refl.
Qed.

Lemma Is_wrapper (p : nat) (d : string) (c : error) (st : option Stack)
  (target : error) :
  is_nil target = false ->
  Is (ptr_Error p (mkError d c st)) target
  = go_eq (ptr_Error p (mkError d c st)) target || Is c target.
Proof.
  intros Ht. rewrite !(Is_existsb _ _ Ht). reflexivity.
Qed.

Lemma doPrintf_literal (wrapErrs : bool) (s t : string) (a : list any) :
  no_percent s = true ->
  doPrintf wrapErrs (s ++ t) a
  = match doPrintf wrapErrs t a with
    | Some (x, ws) => Some (s ++ x, ws)
    | None => None
    end.
Proof.
  induction s as [|c s IH]; intros Hs.
  - cbn. destruct (doPrintf wrapErrs t a) as [[x ws]|]; reflexivity.
  - cbn [no_percent] in Hs. apply andb_true_iff in Hs. destruct Hs as [Hc Hs].
    apply negb_true_iff in Hc.
    change (String c s ++ t) with (String c (s ++ t)).
    cbn [doPrintf]. rewrite Hc, (IH Hs).
    destruct (doPrintf wrapErrs t a) as [[x ws]|]; reflexivity.
Qed.

(** X12. With a format that has no verb, the method Wrapf(format, err) of an
    Error with a description, on a non-nil err, returns a fmt wrapError whose
    text is the format, " :" and the receiver's description, without the
    message of err; err is reached by two unwraps. *)
Theorem X12_Error_Wrapf_literal_format :
  forall (rt : Runtime) (cs : Stack) (e : Error) (format : string) (err : error)
         (h : heap),
    no_percent format = true ->
    err <> nil_error ->
    Description e <> "" ->
    exists result,
      Error_Wrapf rt cs e format err h = (result, S (S h))
      /\ result
         = fmt_wrapError (S h) (format ++ " :" ++ Description e)
             (ptr_Error h (mkError (Description e) err (callers cs)))
      /\ error_Error result = Ret (format ++ " :" ++ Description e)
      /\ Unwrap_n 2 result = err.
Proof.
  intros rt cs e format err h Hf Herr Hd. apply is_nil_false in Herr.
  eexists. split; [|split; [reflexivity | split; reflexivity]].
  unfold Error_Wrapf. rewrite Herr.
  destruct (String.eqb_spec (Description e) ""); [contradiction|].
  cbn [orb]. unfold bind, alloc, Errorf.
  rewrite (doPrintf_literal true format " :%w" _ Hf).
  cbn. unfold ret. now rewrite append_empty.
Qed.

Lemma X12_witness :
  exists result,
    Error_Wrapf example_runtime [4%Z] (mkError "storage" nil_error None)
      "loading user" sqlErr heap0 = (result, S (S heap0))
    /\ result
       = fmt_wrapError (S heap0) ("loading user" ++ " :" ++ "storage")
           (ptr_Error heap0 (mkError "storage" sqlErr (callers [4%Z])))
    /\ error_Error result = Ret ("loading user" ++ " :" ++ "storage")
    /\ Unwrap_n 2 result = sqlErr.
Proof.
  apply (X12_Error_Wrapf_literal_format example_runtime [4%Z]
           (mkError "storage" nil_error None) "loading user" sqlErr heap0).
  - reflexivity.
  - discriminate.
  - discriminate.
Defined.

(** X13. The method Wrap(err) of an Error with a description, on a non-nil
    err, builds a new Error from the receiver's description and err only:
    its Error() is the description, ": " and the message of err, errors.Is
    matches err, and errors.Is does not match the receiver (unless err
    already did), a sentinel used as receiver included. *)
Theorem X13_Error_Wrap_result :
  forall (cs : Stack) (q : nat) (e : Error) (err : error) (h : heap),
    err <> nil_error ->
    Description e <> "" ->
    q < h ->
    Is err (ptr_Error q e) = false ->
    exists w m,
      Error_Wrap cs e err h = (ptr_Error h w, S h)
      /\ error_Error err = Ret m
      /\ Error_Error w = Ret (Description e ++ ": " ++ m)
      /\ Is (ptr_Error h w) err = true
      /\ Is (ptr_Error h w) (ptr_Error q e) = false.
Proof.
  intros cs q e err h Herr Hd Hq HIs.
  pose proof (Error_Wrap_wraps cs e err h Herr Hd) as HW.
  apply is_nil_false in Herr.
  destruct (Error_Error_with_cause (Description e) err (callers cs) Herr)
    as [m [Hm HE]].
  exists (mkError (Description e) err (callers cs)), m.
  split; [exact HW|]. split; [exact Hm|]. split; [exact HE|]. split.
  - rewrite (Is_wrapper _ _ _ _ _ Herr), Is_refl. apply orb_true_r.
  - rewrite (Is_wrapper _ _ _ _ (ptr_Error q e) eq_refl), HIs.
    cbn [go_eq]. rewrite orb_false_r. apply Nat.eqb_neq. lia.
Qed.

Lemma X13_witness :
  exists w m,
    Error_Wrap [4%Z] (mkError "entity not found" nil_error None) sqlErr heap0
    = (ptr_Error heap0 w, S heap0)
    /\ error_Error sqlErr = Ret m
    /\ Error_Error w = Ret ("entity not found" ++ ": " ++ m)
    /\ Is (ptr_Error heap0 w) sqlErr = true
    /\ Is (ptr_Error heap0 w) ErrNotFound = false.
Proof.
  apply (X13_Error_Wrap_result [4%Z] 5
           (mkError "entity not found" nil_error None) sqlErr heap0).
  - discriminate.
  - discriminate.
  - repeat constructor.
  - reflexivity.
Defined.

(** ** The sentinels *)

(** X14. The ten sentinels are told apart by errors.Is: a sentinel matches
    itself and no other sentinel. *)
Theorem X14_sentinels_match_only_themselves :
  forall (i j : nat),
    i < 10 -> j < 10 ->
    Is (nth i package_vars nil_error) (nth j package_vars nil_error)
    = Nat.eqb i j.
Proof.
  intros i j Hi Hj.
  assert (H : forallb
                (fun i => forallb
                   (fun j => Bool.eqb
                               (Is (nth i package_vars nil_error)
                                  (nth j package_vars nil_error))
                               (Nat.eqb i j))
                   (seq 0 10))
                (seq 0 10) = true) by reflexivity.
  rewrite forallb_forall in H.
  specialize (H i ltac:(apply in_seq; lia)).
  rewrite forallb_forall in H.
  specialize (H j ltac:(apply in_seq; lia)).
  now apply Bool.eqb_prop.
Qed.

Lemma X14_witness :
  Is (nth 5 package_vars nil_error) (nth 8 package_vars nil_error) = Nat.eqb 5 8
  /\ Is (nth 5 package_vars nil_error) (nth 5 package_vars nil_error) = Nat.eqb 5 5.
Proof.
  split.
  - apply (X14_sentinels_match_only_themselves 5 8); repeat constructor.
  - apply (X14_sentinels_match_only_themselves 5 5); repeat constructor.
Defined.

Lemma package_vars_below (s : error) : In s package_vars -> heap_below heap0 s.
Proof.
  unfold package_vars. cbn. intros H.
  repeat (destruct H as [<-|H]; [cbn; unfold heap0; cbn; lia|]). destruct H.
Qed.

(** X15. An error made by New after the package is initialised is no
    sentinel, whatever its description: errors.Is does not match it with any
    of the ten, and it does not pass the switch of
    GetOriginalPredefinedError. *)
Theorem X15_New_is_never_a_sentinel :
  forall (d : string) (h : heap) (s : error),
    heap0 <= h ->
    In s package_vars ->
    Is (fst (New d h)) s = false
    /\ is_predefined (fst (New d h)) = false.
Proof.
  intros d h s Hh Hs.
  assert (Hgo : forall s', In s' package_vars ->
                           go_eq (ptr_Error h (mkError d nil_error None)) s' = false).
  { intros s' Hs'. apply (go_eq_new_Error heap0); auto using package_vars_below. }
  split.
  - rewrite (Is_existsb _ s (package_vars_not_nil s Hs)).
    cbn [New bind alloc ret fst chain existsb]. now rewrite Hgo.
  - rewrite is_predefined_chain.
    cbn [New bind alloc ret fst chain existsb]. rewrite orb_false_r.
    unfold is_sentinel. apply not_true_is_false. intros H.
    apply existsb_exists in H. destruct H as (s' & Hs' & H).
    rewrite (Hgo s' Hs') in H. discriminate.
Qed.

Lemma X15_witness :
  Is (fst (New "entity not found" heap0)) ErrNotFound = false
  /\ is_predefined (fst (New "entity not found" heap0)) = false.
Proof.
  apply (X15_New_is_never_a_sentinel "entity not found" heap0 ErrNotFound).
  - apply le_n.
  - do 5 right. left. reflexivity.
Defined.

(** ** Stacks at the edges *)

(** X16. An Error that carries an empty stack, as AddCustomCallStack builds
    from an empty Stack, does not report an empty call stack: the runtime
    yields no frame, the loop formats the zero Frame, and GetCallStack()
    returns the single entry newline, tab, ":0". *)
Theorem X16_GetCallStack_of_empty_stack :
  forall (rt : Runtime) (err : error) (h : heap),
    err <> nil_error ->
    CallersFrames rt [] = [] ->
    exists w,
      fst (AddCustomCallStack err (Some []) h) = Ret (ptr_Error h w)
      /\ Error_GetCallStack rt (ref h w)
         = Some [String (ascii_of_nat 10) (String (ascii_of_nat 9) ":0")].
Proof.
  intros rt err h Herr Hrt. apply is_nil_false in Herr.
  destruct (error_Error_total err Herr) as [m Hm].
  exists (mkError m err (Some [])). split.
  - unfold AddCustomCallStack. rewrite Herr, Hm. reflexivity.
  - cbn. rewrite Hrt. reflexivity.
Qed.

Lemma X16_witness :
  exists w,
    fst (AddCustomCallStack sqlErr (Some []) heap0) = Ret (ptr_Error heap0 w)
    /\ Error_GetCallStack bare_runtime (ref heap0 w)
       = Some [String (ascii_of_nat 10) (String (ascii_of_nat 9) ":0")].
Proof.
  apply (X16_GetCallStack_of_empty_stack bare_runtime sqlErr heap0).
  - discriminate.
  - reflexivity.
Defined.

Lemma last_such_app (f : error -> bool) (l1 l2 : list error) (y : error) :
  f y = true -> existsb f l2 = false ->
  last_such f (l1 ++ y :: l2)%list = Some y.
Proof.
  intros Hy Hl2. induction l1 as [|x l1 IH]; cbn.
  - apply last_such_none in Hl2. now rewrite Hl2, Hy.
  - now rewrite IH.
Qed.

Lemma no_stack_in_existsb (l : list error) :
  no_stack_in l = true -> existsb has_stack l = false.
Proof.
  unfold no_stack_in. induction l as [|x l IH]; cbn; [reflexivity|].
  intros H. apply andb_true_iff in H. destruct H as [Hx Hl].
  apply negb_true_iff in Hx. now rewrite Hx, IH.
Qed.

(** X17. On an error wrapped by successive Wrap and Wrapf calls, whose own
    chain has no Error with a stack, FindOriginalErrorWithStack returns the
    wrapper made by the first call, the one next to the wrapped error, and
    not the outermost wrapper. *)
Theorem X17_FindOriginalErrorWithStack_of_nested_wraps :
  forall (rt : Runtime) (c : wrap_call) (rest : list wrap_call) (e : error)
         (h : heap),
    e <> nil_error ->
    no_stack_in (chain e) = true ->
    exists st,
      FindOriginalErrorWithStack rt (fst (wrap_all rt (c :: rest) e h))
      = ref h (mkError (call_description rt c) e (Some st))
      /\ Unwrap_n (length rest) (fst (wrap_all rt (c :: rest) e h))
         = ptr_Error h (mkError (call_description rt c) e (Some st)).
Proof.
  intros rt c rest e h He Hno. apply is_nil_false in He.
  destruct (wrap_with_description rt c e h He) as [st Hw].
  exists st. cbn [wrap_all]. unfold bind. rewrite Hw.
  set (w1 := ptr_Error h (mkError (call_description rt c) e (Some st))).
  split.
  - rewrite FindOriginalErrorWithStack_last_such.
    destruct (chain_wrap_all rt rest w1 (S h) eq_refl) as [ws ->].
    change (chain w1) with (w1 :: chain e).
    rewrite (last_such_app has_stack ws (chain e) w1 eq_refl
               (no_stack_in_existsb _ Hno)).
    reflexivity.
  - apply (wrap_all_unwrap rt rest w1 (S h) eq_refl).
Qed.

Lemma X17_witness :
  exists st,
    FindOriginalErrorWithStack example_runtime
      (fst (wrap_all example_runtime three_wraps sqlErr heap0))
    = ref heap0 (mkError "query" sqlErr (Some st))
    /\ Unwrap_n 2 (fst (wrap_all example_runtime three_wraps sqlErr heap0))
       = ptr_Error heap0 (mkError "query" sqlErr (Some st)).
Proof.
  apply (X17_FindOriginalErrorWithStack_of_nested_wraps example_runtime
           (ByWrap [4%Z] "query")
           [ByWrapf [5%Z] "user %d" [VInt 42]; ByWrap [6%Z] "handler"]
           sqlErr heap0).
  - discriminate.
  - reflexivity.
Defined.

(** ** The tracing adapter *)

Lemma append_assoc (a b c : string) : (a ++ b) ++ c = a ++ b ++ c.
Proof. induction a as [|x a IH]; cbn; [reflexivity | now rewrite IH]. Qed.

Lemma concat_empty_app (l1 l2 : list string) :
  String.concat "" (l1 ++ l2)%list = String.concat "" l1 ++ String.concat "" l2.
Proof.
  induction l1 as [|x l1 IH]; [reflexivity|].
  destruct l1 as [|y l1].
  - cbn. destruct l2 as [|z l2]; cbn; [now rewrite append_empty | reflexivity].
  - change (String.concat "" ((x :: y :: l1) ++ l2)%list)
      with (x ++ "" ++ String.concat "" ((y :: l1) ++ l2)%list).
    rewrite IH. cbn. now rewrite append_assoc.
Qed.

Lemma buildStack_loop_spec (rt : Runtime) (cs_w : Stack) (frames : list Frame) :
  forall (buffer : string) (h : heap),
    buildStack_loop rt cs_w frames buffer h
    = (inl (buffer ++ buildStack_text frames), h).
Proof.
  unfold buildStack_text.
  induction frames as [|f rest IH]; intros buffer h.
  - cbn. unfold ret. now rewrite append_empty.
  - cbn [buildStack_loop Frames_Next filter map].
    fold (reportable f).
    destruct (reportable f) eqn:Hf; cbn [Buffer_Fprintf is_nil negb].
    + destruct rest as [|g rest'].
      * cbn [length Nat.eqb negb filter map String.concat]. reflexivity.
      * cbn [length Nat.eqb negb]. rewrite IH.
        change (f :: filter reportable (g :: rest'))
          with ([f] ++ filter reportable (g :: rest'))%list.
        rewrite map_app, concat_empty_app. cbn [map String.concat].
        now rewrite append_assoc.
    + destruct rest as [|g rest'].
      * cbn [length Nat.eqb negb filter map String.concat]. unfold ret.
        now rewrite append_empty.
      * cbn [length Nat.eqb negb]. now rewrite IH.
Qed.

Lemma buildStack_value (rt : Runtime) (tr : Tracing) (cs cs_w : Stack) (h : heap) :
  buildStack rt tr cs cs_w h
  = ((strings_TrimSpace tr
        (buildStack_text (CallersFrames rt (firstn 64 cs))), nil_error), h).
Proof.
  unfold buildStack, bind. rewrite buildStack_loop_spec. reflexivity.
Qed.

(** X18. buildStack never returns an error and allocates nothing: its text
    is, trimmed, one line group per frame of the first 64 program counters
    whose function is named and not in package runtime, in order; unnamed
    frames are skipped, not a reason to stop. *)
Theorem X18_buildStack_text :
  forall (rt : Runtime) (tr : Tracing) (cs cs_w : Stack) (h : heap),
    buildStack rt tr cs cs_w h
    = ((strings_TrimSpace tr
          (buildStack_text (CallersFrames rt (firstn 64 cs))), nil_error), h).
Proof.
  intros rt tr cs cs_w h. apply buildStack_value.
Qed.

Example buildStack_run :
  fst (buildStack
         (mkRuntime
            (fun _ => [mkFrame "runtime.gopanic" "panic.go" 770;
                       mkFrame "" "asm.s" 7;
                       mkFrame "unknown" "x.c" 1;
                       mkFrame "main.main" "main.go" 12])
            (fun _ _ => "") (fun _ _ => ret nil_error))
         example_tracing [1%Z] [] heap0)
  = (frameLine (mkFrame "unknown" "x.c" 1)
     ++ frameLine (mkFrame "main.main" "main.go" 12), nil_error).
Proof. reflexivity. Qed.

Lemma HandleError_with_span (rt : Runtime) (tr : Tracing) (cs cs_w : Stack)
  (ctx : Context) (sp : nat) (err : error) (h : heap) :
  is_nil err = false ->
  ctx_span ctx = Some sp ->
  exists msg,
    error_Error err = Ret msg
    /\ HandleError rt tr cs cs_w ctx err h
       = (Ret (nil_error,
               ([SetTag ext_Error (TBool true);
                 SetTag ext_ErrorMsg (TString msg);
                 SetTag ext_ErrorType (TString (Sprintf_T tr err));
                 SetTag ext_ErrorStack (TString (reported_stack rt tr cs err))]
                ++ setSpanRequestInfo tr ctx ++ [Finish])%list), h).
Proof.
  intros He Hsp. destruct (error_Error_total err He) as [msg Hm].
  exists msg. split; [exact Hm|].
  unfold HandleError, reported_stack, As. rewrite He, Hsp, As_loop_find.
  destruct (find is_ptr_Error (chain err)) as [[| | |p e]|];
    unfold bind; rewrite ?buildStack_value; unfold ret;
    cbn [is_nil negb]; rewrite Hm; reflexivity.
Qed.

(** X19. HandleError always returns a nil error and allocates nothing (the
    error branches of buildStack and HandleError are never taken, a write to
    a bytes.Buffer returning no error); when err is nil or the context has no
    span it makes no call on any span, not even Finish. *)
Theorem X19_HandleError_returns_nil :
  forall (rt : Runtime) (tr : Tracing) (cs cs_w : Stack) (ctx : Context)
         (err : error) (h : heap),
    exists calls,
      HandleError rt tr cs cs_w ctx err h = (Ret (nil_error, calls), h)
      /\ (err = nil_error \/ ctx_span ctx = None -> calls = []).
Proof.
  intros rt tr cs cs_w ctx err h.
  destruct (is_nil err) eqn:He.
  - exists []. unfold HandleError. rewrite He. split; reflexivity.
  - destruct (ctx_span ctx) as [sp|] eqn:Hsp.
    + destruct (HandleError_with_span rt tr cs cs_w ctx sp err h He Hsp)
        as [msg [_ HH]].
      eexists. split; [exact HH|].
      intros [-> | H]; discriminate.
    + exists []. unfold HandleError. rewrite He, Hsp. split; reflexivity.
Qed.

Lemma X19_witness :
  exists calls,
    HandleError example_runtime example_tracing [1%Z] [] (mkContext None None)
      sqlErr heap0 = (Ret (nil_error, calls), heap0)
    /\ calls = [].
Proof.
  destruct (X19_HandleError_returns_nil example_runtime example_tracing [1%Z] []
              (mkContext None None) sqlErr heap0) as [calls [H1 H2]].
  exists calls. split; [exact H1|]. apply H2. right. reflexivity.
Defined.

(** X20. With a non-nil err and a span in the context, HandleError makes, in
    this order: the four tags error = true, error message = err.Error(),
    error type and error stack, then the request tags, then Finish, once and
    last. The stack is the call stack of the outermost Error of the chain,
    joined by newlines, and the text of buildStack only when the chain has
    no Error. *)
Theorem X20_HandleError_calls :
  forall (rt : Runtime) (tr : Tracing) (cs cs_w : Stack) (ctx : Context)
         (sp : nat) (err : error) (h : heap),
    err <> nil_error ->
    ctx_span ctx = Some sp ->
    exists msg,
      error_Error err = Ret msg
      /\ HandleError rt tr cs cs_w ctx err h
         = (Ret (nil_error,
                 ([SetTag ext_Error (TBool true);
                   SetTag ext_ErrorMsg (TString msg);
                   SetTag ext_ErrorType (TString (Sprintf_T tr err));
                   SetTag ext_ErrorStack (TString (reported_stack rt tr cs err))]
                  ++ setSpanRequestInfo tr ctx ++ [Finish])%list), h).
Proof.
  intros rt tr cs cs_w ctx sp err h He Hsp.
  apply (HandleError_with_span rt tr cs cs_w ctx sp err h); [|exact Hsp].
  now apply is_nil_false.
Qed.

Lemma X20_witness :
  exists msg,
    error_Error (ptr_Error 32 handler_Error) = Ret msg
    /\ HandleError example_runtime example_tracing [1%Z] []
         (mkContext (Some 1) None) (ptr_Error 32 handler_Error) heap0
       = (Ret (nil_error,
               ([SetTag ext_Error (TBool true);
                 SetTag ext_ErrorMsg (TString msg);
                 SetTag ext_ErrorType
                   (TString (Sprintf_T example_tracing (ptr_Error 32 handler_Error)));
                 SetTag ext_ErrorStack
                   (TString (reported_stack example_runtime example_tracing
                               [1%Z] (ptr_Error 32 handler_Error)))]
                ++ setSpanRequestInfo example_tracing (mkContext (Some 1) None)
                ++ [Finish])%list), heap0).
Proof.
  apply (X20_HandleError_calls example_runtime example_tracing [1%Z] []
           (mkContext (Some 1) None) 1 (ptr_Error 32 handler_Error) heap0).
  - discriminate.
  - reflexivity.
Defined.

(** X21. When the outermost Error of the chain has no captured stack, as an
    error made by New or Newf, the stack tag HandleError sets is the empty
    string, whatever stacks the errors below it carry and whatever the
    calling goroutine's stack is: buildStack is not consulted. *)
Theorem X21_HandleError_stackless_Error :
  forall (rt : Runtime) (tr : Tracing) (cs cs_w : Stack) (ctx : Context)
         (sp : nat) (err : error) (p : nat) (d : string) (c : error) (h : heap),
    ctx_span ctx = Some sp ->
    find is_ptr_Error (chain err) = Some (ptr_Error p (mkError d c None)) ->
    exists calls,
      HandleError rt tr cs cs_w ctx err h = (Ret (nil_error, calls), h)
      /\ nth_error calls 3 = Some (SetTag ext_ErrorStack (TString "")).
Proof.
  intros rt tr cs cs_w ctx sp err p d c h Hsp Hf.
  assert (He : is_nil err = false) by (destruct err; [discriminate | reflexivity ..]).
  destruct (HandleError_with_span rt tr cs cs_w ctx sp err h He Hsp)
    as [msg [_ HH]].
  eexists. split; [exact HH|].
  cbn [app nth_error]. unfold reported_stack. rewrite Hf. reflexivity.
Qed.

Lemma X21_witness :
  exists calls,
    HandleError example_runtime example_tracing [5%Z; 6%Z] []
      (mkContext (Some 1) None)
      (fmt_wrapError 40 "outer"
         (ptr_Error 41 (mkError "no stack" (ptr_Error 30 query_Error) None)))
      heap0 = (Ret (nil_error, calls), heap0)
    /\ nth_error calls 3 = Some (SetTag ext_ErrorStack (TString "")).
Proof.
  apply (X21_HandleError_stackless_Error example_runtime example_tracing
           [5%Z; 6%Z] [] (mkContext (Some 1) None) 1 _ 41 "no stack"
           (ptr_Error 30 query_Error) heap0); reflexivity.
Defined.

(** X22. setSpanRequestInfo only sets tags to non-empty strings, at most
    three of them; it sets none when the context carries no request
    information, and none when every field of the attached RequestInfo is
    empty. *)
Theorem X22_setSpanRequestInfo_tags :
  forall (tr : Tracing) (ctx : Context) (ri : RequestInfo),
    forallb sets_nonempty_string (setSpanRequestInfo tr ctx) = true
    /\ length (setSpanRequestInfo tr ctx) <= 3
    /\ (ctx_request ctx = None -> setSpanRequestInfo tr ctx = [])
    /\ (Method ri = "" -> URI ri = "" -> Headers ri = [] -> Body ri = "" ->
        setSpanRequestInfo tr (WithRequest ctx ri) = []).
Proof.
  intros tr ctx ri. split; [|split; [|split]].
  - unfold setSpanRequestInfo. destruct (ctx_request ctx) as [r|]; [|reflexivity].
    destruct (nonempty (Method r)) eqn:H1;
      destruct (nonempty (URI r)) eqn:H2;
      destruct (nonempty (compactDetails tr r)) eqn:H3;
      cbn; rewrite ?H1, ?H2, ?H3; reflexivity.
  - unfold setSpanRequestInfo. destruct (ctx_request ctx) as [r|]; [|cbn; lia].
    destruct (nonempty (Method r)); destruct (nonempty (URI r));
      destruct (nonempty (compactDetails tr r)); cbn; lia.
  - intros H. unfold setSpanRequestInfo. now rewrite H.
  - intros H1 H2 H3 H4. unfold setSpanRequestInfo, WithRequest, compactDetails.
    cbn [ctx_request]. rewrite H1, H2, H3, H4. reflexivity.
Qed.

Lemma X22_witness :
  setSpanRequestInfo example_tracing (mkContext (Some 1) None) = []
  /\ setSpanRequestInfo example_tracing
       (WithRequest (mkContext (Some 1) None) (mkRequestInfo "" "" [] "")) = [].
Proof.
  split.
  - apply (X22_setSpanRequestInfo_tags example_tracing (mkContext (Some 1) None)
             (mkRequestInfo "" "" [] "")); reflexivity.
  - apply (X22_setSpanRequestInfo_tags example_tracing (mkContext (Some 1) None)
             (mkRequestInfo "" "" [] "")); reflexivity.
Defined.

Example setSpanRequestInfo_run :
  setSpanRequestInfo example_tracing
    (WithRequest (mkContext (Some 1) None)
       (mkRequestInfo "GET" "" [("Accept", "*/*")] ""))
  = [SetTag ext_HTTPMethod (TString "GET");
     SetTag (literal_key "error.details") (TString "{}")].
Proof. reflexivity. Qed.

(** ** Size of a captured stack *)

Lemma known_prefix_length (frames : list Frame) :
  length (known_prefix frames) <= length frames.
Proof.
  induction frames as [|f rest IH]; cbn; [lia|].
  destruct (String.eqb (Function f) "unknown"); cbn; lia.
Qed.

(** X23. The stack captured by NewWithStack (and by every wrapper, through
    callers) is the first 32 program counters of the caller at most, and
    GetCallStack() never returns more entries than the runtime yields frames
    for it, one entry at least being possible for an empty list of frames. *)
Theorem X23_captured_stack_bounds :
  forall (rt : Runtime) (cs : Stack) (d : string) (h : heap),
  exists st l,
    NewWithStack cs d h = (ptr_Error h (mkError d nil_error (Some st)), S h)
    /\ st = firstn 32 cs
    /\ length st <= 32
    /\ Error_GetCallStack rt (ref h (mkError d nil_error (Some st))) = Some l
    /\ length l <= Nat.max 1 (length (CallersFrames rt st)).
Proof.
  intros rt cs d h. exists (firstn 32 cs).
  exists (map formatFrame
            (known_prefix (yielded (CallersFrames rt (firstn 32 cs))))).
  split; [reflexivity|]. split; [reflexivity|].
  split; [apply firstn_le_length|]. split.
  - unfold Error_GetCallStack. cbn [stack].
    rewrite GetCallStack_loop_spec. reflexivity.
  - rewrite length_map.
    generalize (CallersFrames rt (firstn 32 cs)) as frames. intros frames.
    etransitivity; [apply known_prefix_length|].
    destruct frames; cbn [yielded length]; lia.
Qed.
